(** * Office-Management-API: a shallow embedding of the FastAPI routers

    The repository is six FastAPI routers (employee, chat, document, expense,
    meeting, project) over one MongoDB collection each, plus the application
    module that mounts five of them.  Every handler is embedded below as a
    function in a small state-and-exception monad over the handler's
    collection; Python dicts are finite maps from keys to BSON values.

    The libraries the handlers call (bson, pymongo, pydantic, fastapi) are not
    part of the repository.  The parts of their behaviour the handlers rely on
    are modelled in the first half of the file, each under a heading that
    names the library. *)

From Stdlib Require Import QArith.
From stdpp Require Import gmap strings list fin_maps.
From Stdlib Require Import Ascii String.

Open Scope string_scope.
Open Scope list_scope.

(** ** Python: text and truthiness *)

(** [str] values are modelled as Rocq strings; [chars] gives the characters. *)
Definition chars (s : string) : list ascii := list_ascii_of_string s.

Definition ascii_code (c : ascii) : N := N_of_ascii c.

Definition in_range (lo hi n : N) : bool := ((lo <=? n) && (n <=? hi))%N.

Definition is_upper (c : ascii) : bool := in_range 65 90 (ascii_code c).
Definition is_lower (c : ascii) : bool := in_range 97 122 (ascii_code c).
Definition is_digit (c : ascii) : bool := in_range 48 57 (ascii_code c).
Definition is_alnum (c : ascii) : bool := is_upper c || is_lower c || is_digit c.
Definition is_ascii (c : ascii) : bool := (ascii_code c <? 128)%N.

(** ASCII case folding: the letters A-Z go to a-z, everything else is kept. *)
Definition fold_case (c : ascii) : ascii :=
  if is_upper c then ascii_of_N (ascii_code c + 32) else c.

Definition eqb_nocase (a b : ascii) : bool :=
  Ascii.eqb (fold_case a) (fold_case b).

(** Python truthiness, as used by [if x:] on the optional query parameters:
    [None], the empty string and the number zero are false. *)
Class Truthy (A : Type) := truthy : A -> bool.

#[global] Instance truthy_str : Truthy string :=
  fun s => match s with EmptyString => false | String _ _ => true end.

#[global] Instance truthy_float : Truthy Q :=
  fun q => negb (Qeq_bool q 0).

#[global] Instance truthy_optional {A} `{Truthy A} : Truthy (option A) :=
  fun o => match o with None => false | Some a => truthy a end.

(** ** bson: ObjectId *)

(** An ObjectId is twelve bytes; [binary] holds them as one big-endian
    number.  [ObjectId(oid)] accepts a [str] of exactly 24 hexadecimal digits
    (either case); [str(oid)] is the 24-digit lower-case rendering.  Any other
    text raises [InvalidId], with one exception that is left unmodelled: bson
    reads the digits with [bytes.fromhex], which skips blanks, so what it does
    with a text of 24 characters that contains blanks is not decided here. *)
Record ObjectId := mkObjectId { binary : N }.

Definition hex_value (c : ascii) : option N :=
  let n := ascii_code c in
  if is_digit c then Some (n - 48)%N
  else if in_range 97 102 n then Some (n - 87)%N
  else if in_range 65 70 n then Some (n - 55)%N
  else None.

Fixpoint fromhex (acc : N) (l : list ascii) : option N :=
  match l with
  | [] => Some acc
  | c :: l' =>
      match hex_value c with
      | Some v => fromhex (16 * acc + v)%N l'
      | None => None
      end
  end.

Definition ObjectId_parse (oid : string) : option ObjectId :=
  if (String.length oid =? 24)%nat
  then mkObjectId <$> fromhex 0 (chars oid)
  else None.

Definition is_blank (c : ascii) : bool :=
  in_range 9 13 (ascii_code c) || (ascii_code c =? 32)%N.

Definition blanks_in_24 (oid : string) : bool :=
  (String.length oid =? 24)%nat && existsb is_blank (chars oid).

Definition hex_digit (v : N) : ascii :=
  if (v <? 10)%N then ascii_of_N (48 + v) else ascii_of_N (87 + v).

Fixpoint hexlify (digits : nat) (n : N) (acc : string) : string :=
  match digits with
  | O => acc
  | S k => hexlify k (n / 16)%N (String (hex_digit (n mod 16)%N) acc)
  end.

Definition ObjectId_str (o : ObjectId) : string := hexlify 24 (binary o) "".

Definition ObjectId_eqb (a b : ObjectId) : bool := (binary a =? binary b)%N.

(** ** MongoDB: the [$regex] operator with option [i]

    The server hands the pattern to PCRE.  The model covers a fragment of the
    pattern language over ASCII text: literal characters, [.], backslash
    followed by a non-alphanumeric character, the greedy quantifiers
    [*], [+], [?], alternation and plain groups.  Anchors, character classes,
    counted repetition, lazy and possessive quantifiers, a group that opens
    with a question mark or a star, letter and digit escapes, NUL and
    non-ASCII text are outside the fragment and reported as such, never
    guessed. *)

Inductive regex : Type :=
| Fail
| Eps
| Chr (c : ascii)
| Dot
| Cat (r s : regex)
| Alt (r s : regex)
| Star (r : regex).

Inductive quantifier := Q_star | Q_plus | Q_opt.

Definition quantify (q : quantifier) (r : regex) : regex :=
  match q with
  | Q_star => Star r
  | Q_plus => Cat r (Star r)
  | Q_opt => Alt r Eps
  end.

(** One nesting level of the pattern being read: the alternatives already
    closed by [|] and the atoms of the current alternative, both most recent
    first.  The flag on an atom records that it already carries a quantifier. *)
Record frame := mkFrame { alts : list regex; atoms : list (regex * bool) }.

Record pstate := mkPstate { cur : frame; outer : list frame; esc : bool }.

Inductive perror := Invalid_pattern | Outside_fragment.

#[global] Instance perror_eq_dec : EqDecision perror.
Proof. solve_decision. Defined.

Definition seq_regex (l : list (regex * bool)) : regex :=
  fold_left (fun acc a => Cat (fst a) acc) l Eps.

Definition frame_regex (f : frame) : regex :=
  fold_left (fun acc r => Alt r acc) (alts f) (seq_regex (atoms f)).

Definition push_atom (r : regex) (st : pstate) : pstate :=
  mkPstate (mkFrame (alts (cur st)) ((r, false) :: atoms (cur st))) (outer st) false.

Definition apply_quantifier (q : quantifier) (st : pstate) : perror + pstate :=
  match atoms (cur st) with
  | [] =>
      match alts (cur st), outer st, q with
      | [], _ :: _, (Q_star | Q_opt) => inl Outside_fragment
      | _, _, _ => inl Invalid_pattern
      end
  | (_, true) :: _ => inl Outside_fragment
  | (r, false) :: rest =>
      inr (mkPstate (mkFrame (alts (cur st)) ((quantify q r, true) :: rest))
             (outer st) false)
  end.

Definition pcre_step (st : pstate) (c : ascii) : perror + pstate :=
  if negb (is_ascii c) || (ascii_code c =? 0)%N then inl Outside_fragment
  else if esc st then
    if is_alnum c then inl Outside_fragment else inr (push_atom (Chr c) st)
  else
    match c with
    | "\"%char => inr (mkPstate (cur st) (outer st) true)
    | "."%char => inr (push_atom Dot st)
    | "*"%char => apply_quantifier Q_star st
    | "+"%char => apply_quantifier Q_plus st
    | "?"%char => apply_quantifier Q_opt st
    | "|"%char =>
        inr (mkPstate (mkFrame (seq_regex (atoms (cur st)) :: alts (cur st)) [])
               (outer st) false)
    | "("%char => inr (mkPstate (mkFrame [] []) (cur st :: outer st) false)
    | ")"%char =>
        match outer st with
        | [] => inl Invalid_pattern
        | f :: fs =>
            inr (mkPstate (mkFrame (alts f) ((frame_regex (cur st), false) :: atoms f))
                   fs false)
        end
    | "^"%char | "$"%char | "["%char | "{"%char => inl Outside_fragment
    | _ => inr (push_atom (Chr c) st)
    end.

Fixpoint pcre_run (st : pstate) (l : list ascii) : perror + pstate :=
  match l with
  | [] => inr st
  | c :: l' =>
      match pcre_step st c with
      | inl e => inl e
      | inr st' => pcre_run st' l'
      end
  end.

Definition pcre_compile (pattern : string) : perror + regex :=
  match pcre_run (mkPstate (mkFrame [] []) [] false) (chars pattern) with
  | inl e => inl e
  | inr st =>
      if esc st then inl Invalid_pattern
      else match outer st with
           | [] => inr (frame_regex (cur st))
           | _ :: _ => inl Invalid_pattern
           end
  end.

(** Matching by derivatives.  A literal is compared caselessly (option [i]);
    [.] is any character but the line feed. *)
Fixpoint nullable (r : regex) : bool :=
  match r with
  | Fail | Chr _ | Dot => false
  | Eps | Star _ => true
  | Cat r s => nullable r && nullable s
  | Alt r s => nullable r || nullable s
  end.

Fixpoint deriv (x : ascii) (r : regex) : regex :=
  match r with
  | Fail | Eps => Fail
  | Chr c => if eqb_nocase c x then Eps else Fail
  | Dot => if (ascii_code x =? 10)%N then Fail else Eps
  | Cat r s =>
      if nullable r then Alt (Cat (deriv x r) s) (deriv x s)
      else Cat (deriv x r) s
  | Alt r s => Alt (deriv x r) (deriv x s)
  | Star r => Cat (deriv x r) (Star r)
  end.

(** Does some prefix of the subject match? *)
Fixpoint match_here (r : regex) (s : list ascii) : bool :=
  nullable r ||
  match s with
  | [] => false
  | x :: s' => match_here (deriv x r) s'
  end.

(** Unanchored search: does the pattern match at some position? *)
Fixpoint search (r : regex) (s : list ascii) : bool :=
  match_here r s ||
  match s with
  | [] => false
  | _ :: s' => search r s'
  end.

(** ** BSON values, documents and exceptions *)

(** The values the six schemas use.  A number is a BSON double ([float] in
    the models), represented by the rational it denotes; NaN and the
    infinities are outside the model. *)
Inductive value :=
| VNull
| VStr (s : string)
| VNum (q : Q)
| VList (l : list string)
| VOid (o : ObjectId).

(** A Python dict with string keys and a MongoDB document are both finite
    maps from field names to values. *)
Abbreviation document := (gmap string value).

(** A collection in natural (insertion) order. *)
Abbreviation collection := (list (gmap string value)).

(** Equality of values as the server compares them: numbers by numeric
    value, everything else structurally. *)
Definition value_eqb (a b : value) : bool :=
  match a, b with
  | VNull, VNull => true
  | VStr s, VStr t => String.eqb s t
  | VNum p, VNum q => Qeq_bool p q
  | VList l, VList k => bool_decide (l = k)
  | VOid o, VOid u => ObjectId_eqb o u
  | _, _ => false
  end.

(** The exceptions the handlers can meet.  [text] is the [detail] of an
    [HTTPException]: a literal of the source, or [str(e)] of a caught
    exception, which is rendered by the library that raised it. *)
Inductive exn :=
| HTTPException (status_code : nat) (detail : text)
| InvalidId (oid : string)
| ValidationError (model : string)
| KeyError (key : string)
| TypeError (what : string)
| DuplicateKeyError
| OperationFailure
with text :=
| Literal (s : string)
| Str_of (e : exn).

(** ** The handler monad: one collection as state, exceptions, and a third
    outcome for inputs the model of the libraries does not cover. *)

Inductive outcome (A : Type) :=
| Returns (a : A)
| Raises (e : exn)
| Unmodelled.
Arguments Returns {A} a.
Arguments Raises {A} e.
Arguments Unmodelled {A}.

Definition M (A : Type) : Type := collection -> collection * outcome A.

Definition ret {A} (a : A) : M A := fun c => (c, Returns a).
Definition raise {A} (e : exn) : M A := fun c => (c, Raises e).
Definition unmodelled {A} : M A := fun c => (c, Unmodelled).

Definition bind {A B} (m : M A) (k : A -> M B) : M B :=
  fun c =>
    match m c with
    | (c', Returns a) => k a c'
    | (c', Raises e) => (c', Raises e)
    | (c', Unmodelled) => (c', Unmodelled)
    end.

Declare Scope handler_scope.
Delimit Scope handler_scope with handler.
Notation "x <- m ;; k" := (bind m (fun x => k))
  (at level 100, m at next level, right associativity) : handler_scope.
Notation "m ;;; k" := (bind m (fun _ => k))
  (at level 100, right associativity) : handler_scope.
Open Scope handler_scope.

(** [try: body except Exception as e: handler(e)]. *)
Definition try_except {A} (body : M A) (handler : exn -> M A) : M A :=
  fun c =>
    match body c with
    | (c', Raises e) => handler e c'
    | r => r
    end.

(** The clause every guarded handler ends with:
    [except Exception as e: raise HTTPException(status_code=500, detail=str(e))]. *)
Definition reraise_500 {A} (e : exn) : M A :=
  raise (HTTPException 500 (Str_of e)).

Fixpoint for_each {A B} (f : A -> M B) (l : list A) : M (list B) :=
  match l with
  | [] => ret []
  | a :: l' => b <- f a ;; bs <- for_each f l' ;; ret (b :: bs)
  end.

Definition lift_option {A} (e : exn) (o : option A) : M A :=
  match o with Some a => ret a | None => raise e end.

(** [ObjectId(oid)] inside a handler. *)
Definition ObjectId_ (oid : string) : M ObjectId :=
  match ObjectId_parse oid with
  | Some o => ret o
  | None => if blanks_in_24 oid then unmodelled else raise (InvalidId oid)
  end.

(** [d[key]]. *)
Definition getitem (d : document) (key : string) : M value :=
  lift_option (KeyError key) (d !! key).

(** [str(v)] for the values found under [_id]: an ObjectId renders as its
    hexadecimal digits, a string is itself; other renderings are not
    modelled. *)
Definition str (v : value) : M string :=
  match v with
  | VOid o => ret (ObjectId_str o)
  | VStr s => ret s
  | _ => unmodelled
  end.

(** [if x: then_ else else_] on an optional query parameter. *)
Definition if_truthy {A B} `{Truthy A} (x : option A) (then_ : A -> B) (else_ : B) : B :=
  match x with
  | Some a => if truthy a then then_ a else else_
  | None => else_
  end.

(** ** pymongo: filters and the five collection calls *)

Inductive criterion :=
| Eq (v : value)
| Regex (pattern options : string).

Abbreviation query := (gmap string criterion).

(** The strings a [$regex] is tried on: the field itself, or the elements of
    an array field. *)
Definition subjects (field : option value) : list string :=
  match field with
  | Some (VStr s) => [s]
  | Some (VList l) => l
  | _ => []
  end.

(** An equality criterion holds for a field with that value, for an array
    field with such an element, and for a missing field when the value is
    null. *)
Definition eq_holds (v : value) (field : option value) : bool :=
  match field with
  | None => value_eqb v VNull
  | Some (VList l) => value_eqb v (VList l) || existsb (fun s => value_eqb v (VStr s)) l
  | Some w => value_eqb v w
  end.

Definition crit_holds (cr : criterion) (field : option value) : bool :=
  match cr with
  | Eq v => eq_holds v field
  | Regex p _ =>
      match pcre_compile p with
      | inr r => existsb (fun s => search r (chars s)) (subjects field)
      | inl _ => false
      end
  end.

Definition crit_error (cr : criterion) : option perror :=
  match cr with
  | Eq _ => None
  | Regex p o =>
      if String.eqb o "i"
      then match pcre_compile p with inl e => Some e | inr _ => None end
      else Some Outside_fragment
  end.

Definition crit_covers (cr : criterion) (field : option value) : bool :=
  match cr with
  | Eq _ => true
  | Regex _ _ => forallb (fun s => forallb is_ascii (chars s)) (subjects field)
  end.

Definition doc_matches (q : query) (d : document) : Prop :=
  map_Forall (fun k cr => crit_holds cr (d !! k) = true) q.

Definition query_modelled (q : query) (c : collection) : Prop :=
  map_Forall (fun _ cr => crit_error cr <> Some Outside_fragment) q /\
  Forall (fun d : document => map_Forall (fun k cr => crit_covers cr (d !! k) = true) q) c.

Definition query_valid (q : query) : Prop :=
  map_Forall (fun _ cr => crit_error cr = None) q.

#[global] Instance doc_matches_dec q d : Decision (doc_matches q d).
Proof. unfold doc_matches. apply _. Defined.
#[global] Instance query_modelled_dec q c : Decision (query_modelled q c).
Proof. unfold query_modelled. apply _. Defined.
#[global] Instance query_valid_dec q : Decision (query_valid q).
Proof. unfold query_valid. apply _. Defined.

(** The server parses the filter before it looks at any document: a pattern
    that does not compile fails the whole call. *)
Definition check_query (q : query) : M unit :=
  fun c =>
    if decide (query_modelled q c) then
      if decide (query_valid q) then (c, Returns tt) else (c, Raises OperationFailure)
    else (c, Unmodelled).

(** [list(collection.find(q))]. *)
Definition find (q : query) : M (list document) :=
  check_query q ;;; fun c => (c, Returns (filter (doc_matches q) c)).

(** [collection.find_one(q)]: the first match in natural order, or [None]. *)
Definition find_one (q : query) : M (option document) :=
  docs <- find q ;; ret (head docs).

(** [collection.insert_one(doc).inserted_id] for a dict without an [_id]
    key: the driver adds a freshly generated ObjectId, [generated], and the
    server refuses an [_id] that is already taken.  The driver also stores the
    new [_id] in the caller's dict; every handler overwrites that key on its
    next line. *)
Definition insert_one (generated : ObjectId) (doc : document) : M ObjectId :=
  fun c =>
    match doc !! "_id" with
    | Some _ => (c, Unmodelled)
    | None =>
        if existsb (fun d : document => eq_holds (VOid generated) (d !! "_id")) c
        then (c, Raises DuplicateKeyError)
        else (c ++ [<["_id" := VOid generated]> doc], Returns generated)
    end.

(** Rewrite the first document that satisfies [q]; the count of documents
    rewritten comes with the new list. *)
Fixpoint rewrite_first (q : query) (f : document -> option document)
    (c : collection) : collection * nat :=
  match c with
  | [] => ([], 0%nat)
  | d :: c' =>
      if decide (doc_matches q d)
      then (match f d with Some d' => d' :: c' | None => c' end, 1%nat)
      else let (c'', n) := rewrite_first q f c' in (d :: c'', n)
  end.

(** [collection.update_one(q, {"$set": fields}).matched_count]: the given
    fields are written over the first match, its other fields stay. *)
Definition update_one (q : query) (fields : document) : M nat :=
  check_query q ;;; fun c => let (c', n) := rewrite_first q (fun d => Some (fields ∪ d)) c in (c', Returns n).

(** [collection.delete_one(q).deleted_count]. *)
Definition delete_one (q : query) : M nat :=
  check_query q ;;; fun c => let (c', n) := rewrite_first q (fun _ => None) c in (c', Returns n).

(** ** pydantic: reading keyword arguments into a model

    A required field must be present with a value of its declared type; an
    optional field may be absent or null; keyword arguments that name no
    field are ignored.  A [float] field also takes a text that reads as a
    number: which texts do is not modelled, so a text is kept as such and
    the model that meets one, and has nothing else to complain about, has
    no modelled outcome. *)
Definition field_str (kw : document) (k : string) : option string :=
  match kw !! k with Some (VStr s) => Some s | _ => None end.

Definition field_float (kw : document) (k : string) : option (Q + string) :=
  match kw !! k with
  | Some (VNum q) => Some (inl q)
  | Some (VStr s) => Some (inr s)
  | _ => None
  end.

(** The model built from the fields read: a validation error when a field
    is missing or of the wrong type. *)
Definition validated {A} (model : string) (o : option (A + string)) : M A :=
  match o with
  | None => raise (ValidationError model)
  | Some (inl a) => ret a
  | Some (inr _) => unmodelled
  end.

Definition field_list (kw : document) (k : string) : option (list string) :=
  match kw !! k with Some (VList l) => Some l | _ => None end.

Definition field_optional_str (kw : document) (k : string) : option (option string) :=
  match kw !! k with
  | None | Some VNull => Some None
  | Some (VStr s) => Some (Some s)
  | _ => None
  end.

Definition optional_str (o : option string) : value :=
  match o with Some s => VStr s | None => VNull end.

(** [Model(id=x, **kw)]: Python refuses a keyword given twice. *)
Definition with_keyword (k : string) (v : value) (kw : document) : M document :=
  match kw !! k with
  | Some _ => raise (TypeError "got multiple values for keyword argument")
  | None => ret (<[k := v]> kw)
  end.

(** ** fastapi: from a handler's outcome to the HTTP status

    An [HTTPException] answers with its own status code; any other exception
    reaches [custom_exception_handler] of [app/main.py], which answers 500. *)
Definition custom_exception_handler (e : exn) : nat := 500%nat.

Definition http_status {A} (success : nat) (o : outcome A) : option nat :=
  match o with
  | Returns _ => Some success
  | Raises (HTTPException code _) => Some code
  | Raises e => Some (custom_exception_handler e)
  | Unmodelled => None
  end.

(** A dict is true unless it is empty. *)
#[global] Instance truthy_dict : Truthy (gmap string value) :=
  fun d => negb (bool_decide (d = ∅)).

(** [if cond: raise e]. *)
Definition raise_if (cond : bool) (e : exn) : M unit :=
  if cond then raise e else ret tt.

(** [for doc in docs: doc["_id"] = str(doc["_id"])]. *)
Definition stringify_ids (docs : list document) : M (list document) :=
  for_each (fun doc : document =>
              v <- getitem doc "_id" ;; s <- str v ;; ret (<["_id" := VStr s]> doc))
           docs.

(** * app/employee/routers.py *)
Module employee.

Record EmployeeBase := { name : string; position : string; salary : Q }.

Record Employee := { base : EmployeeBase; id : string }.

Record EmployeeResponse := { detail : string; data : option Employee }.

(** [employee.dict()]. *)
Definition dict (e : EmployeeBase) : document :=
  {[ "name" := VStr (name e); "position" := VStr (position e);
     "salary" := VNum (salary e) ]}.

(** [Employee] called with the entries of [kw] as keyword arguments. *)
Definition Employee_ (kw : document) : M Employee :=
  validated "Employee"
    (n ← field_str kw "name"; p ← field_str kw "position";
     s ← field_float kw "salary"; i ← field_str kw "id";
     Some (match s with
           | inl s => inl {| base := {| name := n; position := p; salary := s |};
                             id := i |}
           | inr text => inr text
           end)).

Definition create_employee (generated : ObjectId) (employee : EmployeeBase)
  : M EmployeeResponse :=
  try_except
    (existing_employee <- find_one {[ "name" := Eq (VStr (name employee)) ]} ;;
     raise_if (truthy existing_employee)
       (HTTPException 400 (Literal "Employee with this name already exists")) ;;;
     let employee_dict := dict employee in
     inserted_id <- insert_one generated employee_dict ;;
     let employee_dict := <["_id" := VStr (ObjectId_str inserted_id)]> employee_dict in
     e <- Employee_ employee_dict ;;
     ret {| detail := "Employee created successfully."; data := Some e |})
    reraise_500.

Definition get_employees : M (list Employee) :=
  try_except
    (employees <- find ∅ ;;
     employees <- stringify_ids employees ;;
     for_each Employee_ employees)
    reraise_500.

Definition search_query (id name position : option string) (salary : option Q)
  : M query :=
  let query : query := ∅ in
  query <- if_truthy id
             (fun id => o <- ObjectId_ id ;; ret (<["_id" := Eq (VOid o)]> query))
             (ret query) ;;
  let query := if_truthy name (fun name => <["name" := Regex name "i"]> query) query in
  let query := if_truthy position
                 (fun position => <["position" := Eq (VStr position)]> query) query in
  let query := if_truthy salary
                 (fun salary => <["salary" := Eq (VNum salary)]> query) query in
  ret query.

Definition search_employees (id name position : option string) (salary : option Q)
  : M (list Employee) :=
  try_except
    (query <- search_query id name position salary ;;
     employees <- find query ;;
     employees <- stringify_ids employees ;;
     for_each Employee_ employees)
    reraise_500.

Definition update_employee (employee_id : string) (employee : EmployeeBase)
  : M EmployeeResponse :=
  try_except
    (let employee_dict := dict employee in
     o <- ObjectId_ employee_id ;;
     matched_count <- update_one {[ "_id" := Eq (VOid o) ]} employee_dict ;;
     raise_if (matched_count =? 0)%nat
       (HTTPException 404 (Literal "Employee not found")) ;;;
     let employee_dict := <["_id" := VStr employee_id]> employee_dict in
     e <- Employee_ employee_dict ;;
     ret {| detail := "Employee updated successfully."; data := Some e |})
    reraise_500.

Definition delete_employee (employee_id : string) : M (gmap string string) :=
  try_except
    (o <- ObjectId_ employee_id ;;
     deleted_count <- delete_one {[ "_id" := Eq (VOid o) ]} ;;
     raise_if (deleted_count =? 0)%nat
       (HTTPException 404 (Literal "Employee not found")) ;;;
     ret {[ "detail" := "Employee deleted successfully." ]})
    reraise_500.

End employee.

(** * app/chat/routers.py *)
Module chat.

Record ChatCreate := { message : string; sender : string; timestamp : string }.

Record ChatResponse := { id : string; fields : ChatCreate }.

Record SuccessResponse := { detail : string; data : option ChatResponse }.

Definition dict (c : ChatCreate) : document :=
  {[ "message" := VStr (message c); "sender" := VStr (sender c);
     "timestamp" := VStr (timestamp c) ]}.

(** [ChatResponse] called with the entries of [kw] as keyword arguments. *)
Definition ChatResponse_ (kw : document) : M ChatResponse :=
  lift_option (ValidationError "ChatResponse")
    (i ← field_str kw "id"; m ← field_str kw "message";
     s ← field_str kw "sender"; t ← field_str kw "timestamp";
     Some {| id := i; fields := {| message := m; sender := s; timestamp := t |} |}).

Definition create_chat (generated : ObjectId) (chat : ChatCreate) : M SuccessResponse :=
  let chat_dict := dict chat in
  try_except
    (inserted_id <- insert_one generated chat_dict ;;
     let chat_dict := <["_id" := VStr (ObjectId_str inserted_id)]> chat_dict in
     i <- getitem chat_dict "_id" ;;
     kw <- with_keyword "id" i chat_dict ;;
     response_data <- ChatResponse_ kw ;;
     ret {| detail := "Chat created successfully."; data := Some response_data |})
    reraise_500.

(** [ChatResponse(id=str(chat["_id"]), **chat)]. *)
Definition to_response (chat : document) : M ChatResponse :=
  v <- getitem chat "_id" ;; s <- str v ;;
  kw <- with_keyword "id" (VStr s) chat ;;
  ChatResponse_ kw.

Definition get_chats : M (list ChatResponse) :=
  try_except
    (chats <- find ∅ ;; for_each to_response chats)
    reraise_500.

Definition search_query (message sender timestamp : option string) : query :=
  let query : query := ∅ in
  let query := if_truthy message
                 (fun message => <["message" := Regex message "i"]> query) query in
  let query := if_truthy sender
                 (fun sender => <["sender" := Eq (VStr sender)]> query) query in
  let query := if_truthy timestamp
                 (fun timestamp => <["timestamp" := Eq (VStr timestamp)]> query) query in
  query.

Definition search_chats (message sender timestamp : option string)
  : M (list ChatResponse) :=
  let query := search_query message sender timestamp in
  try_except
    (chats <- find query ;; for_each to_response chats)
    reraise_500.

Definition update_chat (chat_id : string) (chat : ChatCreate) : M SuccessResponse :=
  let chat_dict := dict chat in
  try_except
    (o <- ObjectId_ chat_id ;;
     matched_count <- update_one {[ "_id" := Eq (VOid o) ]} chat_dict ;;
     raise_if (matched_count =? 0)%nat
       (HTTPException 404 (Literal "Chat not found")) ;;;
     let chat_dict := <["_id" := VStr chat_id]> chat_dict in
     kw <- with_keyword "id" (VStr chat_id) chat_dict ;;
     response_data <- ChatResponse_ kw ;;
     ret {| detail := "Chat updated successfully."; data := Some response_data |})
    reraise_500.

Definition delete_chat (chat_id : string) : M unit :=
  try_except
    (o <- ObjectId_ chat_id ;;
     deleted_count <- delete_one {[ "_id" := Eq (VOid o) ]} ;;
     raise_if (deleted_count =? 0)%nat
       (HTTPException 404 (Literal "Chat not found")))
    reraise_500.

End chat.

(** [for doc in docs: Model(id=str(doc["_id"]) merged over doc)], the list
    comprehension of the document, expense, meeting and project listings. *)
Definition with_id_key (doc : document) : M document :=
  v <- getitem doc "_id" ;; s <- str v ;; ret (<["id" := VStr s]> doc).

(** * app/document/routers.py *)
Module document.

Record DocumentBase :=
  { title : string; description : string; uploaded_by : string }.

Record Document := { base : DocumentBase; id : string }.

Record DocumentResponse := { detail : string; data : option Document }.

Definition dict (d : DocumentBase) : document :=
  {[ "title" := VStr (title d); "description" := VStr (description d);
     "uploaded_by" := VStr (uploaded_by d) ]}.

(** [Document] called with the entries of [kw] as keyword arguments. *)
Definition Document_ (kw : document) : M Document :=
  lift_option (ValidationError "Document")
    (t ← field_str kw "title"; d ← field_str kw "description";
     u ← field_str kw "uploaded_by"; i ← field_str kw "id";
     Some {| base := {| title := t; description := d; uploaded_by := u |};
             id := i |}).

Definition create_document (generated : ObjectId) (document : DocumentBase)
  : M DocumentResponse :=
  existing_document <- find_one {[ "title" := Eq (VStr (title document)) ]} ;;
  raise_if (truthy existing_document)
    (HTTPException 400 (Literal "Document with this title already exists")) ;;;
  let document_dict := dict document in
  inserted_id <- insert_one generated document_dict ;;
  let document_dict := <["_id" := VStr (ObjectId_str inserted_id)]> document_dict in
  i <- getitem document_dict "_id" ;;
  d <- Document_ (<["id" := i]> document_dict) ;;
  ret {| detail := "Document created successfully."; data := Some d |}.

Definition get_documents : M (list Document) :=
  try_except
    (documents <- find ∅ ;;
     documents <- stringify_ids documents ;;
     kws <- for_each with_id_key documents ;;
     for_each Document_ kws)
    reraise_500.

Definition search_query (id title uploaded_by : option string) : M query :=
  let query : query := ∅ in
  query <- if_truthy id
             (fun id => o <- ObjectId_ id ;; ret (<["_id" := Eq (VOid o)]> query))
             (ret query) ;;
  let query := if_truthy title
                 (fun title => <["title" := Regex title "i"]> query) query in
  let query := if_truthy uploaded_by
                 (fun uploaded_by => <["uploaded_by" := Regex uploaded_by "i"]> query)
                 query in
  ret query.

Definition search_documents (id title uploaded_by : option string)
  : M (list Document) :=
  try_except
    (query <- search_query id title uploaded_by ;;
     documents <- find query ;;
     documents <- stringify_ids documents ;;
     kws <- for_each with_id_key documents ;;
     for_each Document_ kws)
    reraise_500.

Definition update_document (document_id : string) (document : DocumentBase)
  : M DocumentResponse :=
  try_except
    (let document_dict := dict document in
     o <- ObjectId_ document_id ;;
     matched_count <- update_one {[ "_id" := Eq (VOid o) ]} document_dict ;;
     raise_if (matched_count =? 0)%nat
       (HTTPException 404 (Literal "Document not found")) ;;;
     let document_dict := <["_id" := VStr document_id]> document_dict in
     d <- Document_ (<["id" := VStr document_id]> document_dict) ;;
     ret {| detail := "Document updated successfully."; data := Some d |})
    reraise_500.

Definition delete_document (document_id : string) : M (gmap string string) :=
  try_except
    (o <- ObjectId_ document_id ;;
     deleted_count <- delete_one {[ "_id" := Eq (VOid o) ]} ;;
     raise_if (deleted_count =? 0)%nat
       (HTTPException 404 (Literal "Document not found")) ;;;
     ret {[ "detail" := "Document deleted successfully." ]})
    reraise_500.

End document.

(** * app/expense/routers.py

    The router is complete, but [app/main.py] does not mount it. *)
Module expense.

Record ExpenseBase :=
  { title : string; amount : Q; category : string; incurred_by : string;
    date : string }.

Record Expense := { base : ExpenseBase; id : string }.

Record ExpenseResponse := { detail : string; data : option Expense }.

Definition dict (e : ExpenseBase) : document :=
  {[ "title" := VStr (title e); "amount" := VNum (amount e);
     "category" := VStr (category e); "incurred_by" := VStr (incurred_by e);
     "date" := VStr (date e) ]}.

(** [Expense] called with the entries of [kw] as keyword arguments. *)
Definition Expense_ (kw : document) : M Expense :=
  validated "Expense"
    (t ← field_str kw "title"; a ← field_float kw "amount";
     c ← field_str kw "category"; b ← field_str kw "incurred_by";
     d ← field_str kw "date"; i ← field_str kw "id";
     Some (match a with
           | inl a => inl {| base := {| title := t; amount := a; category := c;
                                        incurred_by := b; date := d |};
                             id := i |}
           | inr text => inr text
           end)).

Definition create_expense (generated : ObjectId) (expense : ExpenseBase)
  : M ExpenseResponse :=
  let expense_dict := dict expense in
  inserted_id <- insert_one generated expense_dict ;;
  let expense_dict := <["_id" := VStr (ObjectId_str inserted_id)]> expense_dict in
  i <- getitem expense_dict "_id" ;;
  e <- Expense_ (<["id" := i]> expense_dict) ;;
  ret {| detail := "Expense created successfully."; data := Some e |}.

Definition get_expenses : M (list Expense) :=
  try_except
    (expenses <- find ∅ ;;
     expenses <- stringify_ids expenses ;;
     kws <- for_each with_id_key expenses ;;
     for_each Expense_ kws)
    reraise_500.

Definition search_query (id title category incurred_by : option string) : M query :=
  let query : query := ∅ in
  query <- if_truthy id
             (fun id => o <- ObjectId_ id ;; ret (<["_id" := Eq (VOid o)]> query))
             (ret query) ;;
  let query := if_truthy title
                 (fun title => <["title" := Regex title "i"]> query) query in
  let query := if_truthy category
                 (fun category => <["category" := Regex category "i"]> query) query in
  let query := if_truthy incurred_by
                 (fun incurred_by => <["incurred_by" := Regex incurred_by "i"]> query)
                 query in
  ret query.

Definition search_expenses (id title category incurred_by : option string)
  : M (list Expense) :=
  try_except
    (query <- search_query id title category incurred_by ;;
     expenses <- find query ;;
     expenses <- stringify_ids expenses ;;
     kws <- for_each with_id_key expenses ;;
     for_each Expense_ kws)
    reraise_500.

Definition update_expense (expense_id : string) (expense : ExpenseBase)
  : M ExpenseResponse :=
  try_except
    (let expense_dict := dict expense in
     o <- ObjectId_ expense_id ;;
     matched_count <- update_one {[ "_id" := Eq (VOid o) ]} expense_dict ;;
     raise_if (matched_count =? 0)%nat
       (HTTPException 404 (Literal "Expense not found")) ;;;
     let expense_dict := <["_id" := VStr expense_id]> expense_dict in
     e <- Expense_ (<["id" := VStr expense_id]> expense_dict) ;;
     ret {| detail := "Expense updated successfully."; data := Some e |})
    reraise_500.

Definition delete_expense (expense_id : string) : M (gmap string string) :=
  try_except
    (o <- ObjectId_ expense_id ;;
     deleted_count <- delete_one {[ "_id" := Eq (VOid o) ]} ;;
     raise_if (deleted_count =? 0)%nat
       (HTTPException 404 (Literal "Expense not found")) ;;;
     ret {[ "detail" := "Expense deleted successfully." ]})
    reraise_500.

End expense.

(** * app/meeting/routers.py *)
Module meeting.

Record MeetingBase :=
  { title : string; description : string; organizer : string; date : string;
    start_time : string; end_time : string; attendees : list string }.

Record Meeting := { base : MeetingBase; id : string }.

Record MeetingResponse := { detail : string; data : option Meeting }.

Definition dict (m : MeetingBase) : document :=
  {[ "title" := VStr (title m); "description" := VStr (description m);
     "organizer" := VStr (organizer m); "date" := VStr (date m);
     "start_time" := VStr (start_time m); "end_time" := VStr (end_time m);
     "attendees" := VList (attendees m) ]}.

(** [Meeting] called with the entries of [kw] as keyword arguments. *)
Definition Meeting_ (kw : document) : M Meeting :=
  lift_option (ValidationError "Meeting")
    (t ← field_str kw "title"; d ← field_str kw "description";
     o ← field_str kw "organizer"; dt ← field_str kw "date";
     s ← field_str kw "start_time"; e ← field_str kw "end_time";
     a ← field_list kw "attendees"; i ← field_str kw "id";
     Some {| base := {| title := t; description := d; organizer := o; date := dt;
                        start_time := s; end_time := e; attendees := a |};
             id := i |}).

Definition create_meeting (generated : ObjectId) (meeting : MeetingBase)
  : M MeetingResponse :=
  existing_meeting <- find_one {[ "title" := Eq (VStr (title meeting));
                                  "date" := Eq (VStr (date meeting)) ]} ;;
  raise_if (truthy existing_meeting)
    (HTTPException 400
       (Literal "Meeting with this title on the same date already exists")) ;;;
  let meeting_dict := dict meeting in
  inserted_id <- insert_one generated meeting_dict ;;
  let meeting_dict := <["_id" := VStr (ObjectId_str inserted_id)]> meeting_dict in
  i <- getitem meeting_dict "_id" ;;
  m <- Meeting_ (<["id" := i]> meeting_dict) ;;
  ret {| detail := "Meeting created successfully."; data := Some m |}.

Definition get_meetings : M (list Meeting) :=
  try_except
    (meetings <- find ∅ ;;
     meetings <- stringify_ids meetings ;;
     kws <- for_each with_id_key meetings ;;
     for_each Meeting_ kws)
    reraise_500.

Definition search_query (id title organizer date : option string) : M query :=
  let query : query := ∅ in
  query <- if_truthy id
             (fun id => o <- ObjectId_ id ;; ret (<["_id" := Eq (VOid o)]> query))
             (ret query) ;;
  let query := if_truthy title
                 (fun title => <["title" := Regex title "i"]> query) query in
  let query := if_truthy organizer
                 (fun organizer => <["organizer" := Regex organizer "i"]> query)
                 query in
  let query := if_truthy date
                 (fun date => <["date" := Eq (VStr date)]> query) query in
  ret query.

Definition search_meetings (id title organizer date : option string)
  : M (list Meeting) :=
  try_except
    (query <- search_query id title organizer date ;;
     meetings <- find query ;;
     meetings <- stringify_ids meetings ;;
     kws <- for_each with_id_key meetings ;;
     for_each Meeting_ kws)
    reraise_500.

Definition update_meeting (meeting_id : string) (meeting : MeetingBase)
  : M MeetingResponse :=
  try_except
    (let meeting_dict := dict meeting in
     o <- ObjectId_ meeting_id ;;
     matched_count <- update_one {[ "_id" := Eq (VOid o) ]} meeting_dict ;;
     raise_if (matched_count =? 0)%nat
       (HTTPException 404 (Literal "Meeting not found")) ;;;
     let meeting_dict := <["_id" := VStr meeting_id]> meeting_dict in
     m <- Meeting_ (<["id" := VStr meeting_id]> meeting_dict) ;;
     ret {| detail := "Meeting updated successfully."; data := Some m |})
    reraise_500.

Definition delete_meeting (meeting_id : string) : M (gmap string string) :=
  try_except
    (o <- ObjectId_ meeting_id ;;
     deleted_count <- delete_one {[ "_id" := Eq (VOid o) ]} ;;
     raise_if (deleted_count =? 0)%nat
       (HTTPException 404 (Literal "Meeting not found")) ;;;
     ret {[ "detail" := "Meeting deleted successfully." ]})
    reraise_500.

End meeting.

(** * app/project/routers.py *)
Module project.

Record ProjectBase :=
  { name : string; description : string; start_date : string;
    end_date : option string; status : string; members : list string }.

Record Project := { base : ProjectBase; id : string }.

Record ProjectResponse := { detail : string; data : option Project }.

Definition dict (p : ProjectBase) : document :=
  {[ "name" := VStr (name p); "description" := VStr (description p);
     "start_date" := VStr (start_date p); "end_date" := optional_str (end_date p);
     "status" := VStr (status p); "members" := VList (members p) ]}.

(** [Project] called with the entries of [kw] as keyword arguments. *)
Definition Project_ (kw : document) : M Project :=
  lift_option (ValidationError "Project")
    (n ← field_str kw "name"; d ← field_str kw "description";
     s ← field_str kw "start_date"; e ← field_optional_str kw "end_date";
     st ← field_str kw "status"; m ← field_list kw "members";
     i ← field_str kw "id";
     Some {| base := {| name := n; description := d; start_date := s;
                        end_date := e; status := st; members := m |};
             id := i |}).

Definition create_project (generated : ObjectId) (project : ProjectBase)
  : M ProjectResponse :=
  existing_project <- find_one {[ "name" := Eq (VStr (name project)) ]} ;;
  raise_if (truthy existing_project)
    (HTTPException 400 (Literal "Project with this name already exists")) ;;;
  let project_dict := dict project in
  inserted_id <- insert_one generated project_dict ;;
  let project_dict := <["_id" := VStr (ObjectId_str inserted_id)]> project_dict in
  i <- getitem project_dict "_id" ;;
  p <- Project_ (<["id" := i]> project_dict) ;;
  ret {| detail := "Project created successfully."; data := Some p |}.

Definition get_projects : M (list Project) :=
  try_except
    (projects <- find ∅ ;;
     projects <- stringify_ids projects ;;
     kws <- for_each with_id_key projects ;;
     for_each Project_ kws)
    reraise_500.

Definition search_query (id name status : option string) : M query :=
  let query : query := ∅ in
  query <- if_truthy id
             (fun id => o <- ObjectId_ id ;; ret (<["_id" := Eq (VOid o)]> query))
             (ret query) ;;
  let query := if_truthy name
                 (fun name => <["name" := Regex name "i"]> query) query in
  let query := if_truthy status
                 (fun status => <["status" := Regex status "i"]> query) query in
  ret query.

Definition search_projects (id name status : option string) : M (list Project) :=
  try_except
    (query <- search_query id name status ;;
     projects <- find query ;;
     projects <- stringify_ids projects ;;
     kws <- for_each with_id_key projects ;;
     for_each Project_ kws)
    reraise_500.

Definition update_project (project_id : string) (project : ProjectBase)
  : M ProjectResponse :=
  try_except
    (let project_dict := dict project in
     o <- ObjectId_ project_id ;;
     matched_count <- update_one {[ "_id" := Eq (VOid o) ]} project_dict ;;
     raise_if (matched_count =? 0)%nat
       (HTTPException 404 (Literal "Project not found")) ;;;
     let project_dict := <["_id" := VStr project_id]> project_dict in
     p <- Project_ (<["id" := VStr project_id]> project_dict) ;;
     ret {| detail := "Project updated successfully."; data := Some p |})
    reraise_500.

Definition delete_project (project_id : string) : M (gmap string string) :=
  try_except
    (o <- ObjectId_ project_id ;;
     deleted_count <- delete_one {[ "_id" := Eq (VOid o) ]} ;;
     raise_if (deleted_count =? 0)%nat
       (HTTPException 404 (Literal "Project not found")) ;;;
     ret {[ "detail" := "Project deleted successfully." ]})
    reraise_500.

End project.

(** * Vocabulary of the statements *)

(** A filter made of equality criteria only. *)
Definition equalities (q : query) : Prop :=
  map_Forall (fun _ cr => exists v, cr = Eq v) q.

(** The language of a compiled pattern, independently of the matcher. *)
Inductive matches : regex -> list ascii -> Prop :=
| matches_eps : matches Eps []
| matches_chr c x : eqb_nocase c x = true -> matches (Chr c) [x]
| matches_dot x : ascii_code x <> 10%N -> matches Dot [x]
| matches_cat r s u v : matches r u -> matches s v -> matches (Cat r s) (u ++ v)
| matches_alt_l r s u : matches r u -> matches (Alt r s) u
| matches_alt_r r s u : matches s u -> matches (Alt r s) u
| matches_star_nil r : matches (Star r) []
| matches_star_more r u v :
    matches r u -> matches (Star r) v -> matches (Star r) (u ++ v).

(** Two texts that are equal up to the case of ASCII letters. *)
Definition same_nocase (u v : list ascii) : Prop :=
  Forall2 (fun a b => eqb_nocase a b = true) u v.

(** [needle] occurs in [hay] up to the case of ASCII letters. *)
Definition contains_nocase (needle hay : string) : Prop :=
  exists pre mid post,
    chars hay = pre ++ mid ++ post /\ same_nocase (chars needle) mid.

(** The characters PCRE gives a meaning of their own. *)
Definition is_meta (c : ascii) : bool :=
  existsb (Ascii.eqb c) (chars "\^$.[|()?*+{").

(** A filter text that is a literal for PCRE: ASCII, no NUL, no
    metacharacter. *)
Definition plain_char (c : ascii) : bool :=
  is_ascii c && negb (ascii_code c =? 0)%N && negb (is_meta c).

Definition plain (s : string) : Prop := forallb plain_char (chars s) = true.

Definition ascii_text (s : string) : Prop := forallb is_ascii (chars s) = true.

(** The pattern a plain text compiles to. *)
Definition literal (l : list ascii) : regex := foldr (fun c r => Cat (Chr c) r) Eps l.

(** The stored document carries the identifier [o]. *)
Definition has_id (o : ObjectId) (d : document) : Prop :=
  eq_holds (VOid o) (d !! "_id") = true.

(** No stored document carries the identifier [o]. *)
Definition absent (o : ObjectId) (c : collection) : Prop :=
  Forall (fun d => ~ has_id o d) c.

(** The document that a create of the payload [b] stores under the
    generated identifier [o], given the payload's [dict]. *)
Definition row {B} (dict : B -> document) (ob : ObjectId * B) : document :=
  <["_id" := VOid (fst ob)]> (dict (snd ob)).

(** A collection that holds such documents only, as one populated through
    the handlers does. *)
Definition rows {B} (dict : B -> document) (l : list (ObjectId * B)) : collection :=
  map (row dict) l.

(** The stored payloads a filter selects. *)
Definition selected {B} (q : query) (dict : B -> document) (l : list (ObjectId * B))
  : list (ObjectId * B) :=
  filter (fun ob => doc_matches q (row dict ob)) l.

(** The answer of a guarded handler that caught [cause]: the collection is
    as before and the exception raised is an [HTTPException] with status 500
    whose detail is [str(cause)]. *)
Definition answers_500 {A} (handler : M A) (cause : exn) (c : collection) : Prop :=
  handler c = (c, Raises (HTTPException 500 (Str_of cause))).

(** Sample data for the closed statements. *)
Definition oid (n : N) : ObjectId := mkObjectId n.

Definition hello : chat.ChatCreate :=
  {| chat.message := "Hello World"; chat.sender := "Alice";
     chat.timestamp := "2024-05-01T09:00" |}.

Definition asha : employee.EmployeeBase :=
  {| employee.name := "Asha"; employee.position := "Engineer";
     employee.salary := 95000 |}.

Definition bo : employee.EmployeeBase :=
  {| employee.name := "Bo"; employee.position := "Analyst";
     employee.salary := 70000 |}.

Definition report : document.DocumentBase :=
  {| document.title := "Report"; document.description := "Q3 figures";
     document.uploaded_by := "Asha" |}.

Definition report_lower : document.DocumentBase :=
  {| document.title := "report"; document.description := "draft";
     document.uploaded_by := "Bo" |}.

Definition apollo : project.ProjectBase :=
  {| project.name := "Apollo"; project.description := "Launch";
     project.start_date := "2024-01-01"; project.end_date := None;
     project.status := "Active"; project.members := ["Asha"; "Bo"] |}.

(** The Record the listings build from a stored row. *)
Definition chat_record (ob : ObjectId * chat.ChatCreate) : chat.ChatResponse :=
  {| chat.id := ObjectId_str (fst ob); chat.fields := snd ob |}.

Definition document_record (ob : ObjectId * document.DocumentBase) : document.Document :=
  {| document.base := snd ob; document.id := ObjectId_str (fst ob) |}.

Definition expense_record (ob : ObjectId * expense.ExpenseBase) : expense.Expense :=
  {| expense.base := snd ob; expense.id := ObjectId_str (fst ob) |}.

Definition meeting_record (ob : ObjectId * meeting.MeetingBase) : meeting.Meeting :=
  {| meeting.base := snd ob; meeting.id := ObjectId_str (fst ob) |}.

Definition project_record (ob : ObjectId * project.ProjectBase) : project.Project :=
  {| project.base := snd ob; project.id := ObjectId_str (fst ob) |}.

(** On the collection [rows dict l] the handler returns, without touching
    the collection, the Records of exactly the stored rows that satisfy [P]. *)
Definition returns_where {B R} (handler : M (list R)) (dict : B -> document)
    (record : ObjectId * B -> R) (l : list (ObjectId * B))
    (P : ObjectId * B -> Prop) : Prop :=
  exists found,
    handler (rows dict l) = (rows dict l, Returns (map record found))
    /\ forall ob, ob ∈ found <-> ob ∈ l /\ P ob.

(** The code the document, expense, meeting and project routers share after
    their [find]: stringify the identifiers, add the [id] key, build the
    models. *)
Definition listing {R} (Model_ : document -> M R) (docs : list document) : M (list R) :=
  docs <- stringify_ids docs ;;
  kws <- for_each with_id_key docs ;;
  for_each Model_ kws.

(** A search parameter that matches by caseless pattern: with a plain,
    non-empty filter text, over stored ASCII text, exactly the rows whose
    field contains the filter up to letter case come back. *)
Definition by_pattern {B R} (search : string -> M (list R)) (dict : B -> document)
    (record : ObjectId * B -> R) (field : B -> string) : Prop :=
  forall l p,
    p <> "" -> plain p -> Forall (fun ob => ascii_text (field (snd ob))) l ->
    returns_where (search p) dict record l
      (fun ob => contains_nocase p (field (snd ob))).

(** A search parameter that matches by equality: exactly the rows whose
    field is the filter text come back. *)
Definition by_equality {B R} (search : string -> M (list R)) (dict : B -> document)
    (record : ObjectId * B -> R) (field : B -> string) : Prop :=
  forall l v,
    v <> "" -> returns_where (search v) dict record l (fun ob => field (snd ob) = v).

(** The [id] parameter: exactly the rows stored under the ObjectId the text
    parses to come back. *)
Definition by_identifier {B R} (search : string -> M (list R)) (dict : B -> document)
    (record : ObjectId * B -> R) : Prop :=
  forall l id o,
    ObjectId_parse id = Some o ->
    returns_where (search id) dict record l (fun ob => fst ob = o).

(** * Properties *)

(** ** Stepping through a handler *)

Section Steps.
Context {A B : Type}.
Implicit Types (m : M A) (k : A -> M B) (c : collection).

Lemma bind_Returns m k c c' a :
  m c = (c', Returns a) -> bind m k c = k a c'.
Proof. unfold bind. intros ->. reflexivity. Qed.

Lemma bind_Raises m k c c' e :
  m c = (c', Raises e) -> bind m k c = (c', Raises e).
Proof. unfold bind. intros ->. reflexivity. Qed.

Lemma bind_Unmodelled m k c c' :
  m c = (c', Unmodelled) -> bind m k c = (c', Unmodelled).
Proof. unfold bind. intros ->. reflexivity. Qed.

Lemma try_except_Returns m (h : exn -> M A) c c' a :
  m c = (c', Returns a) -> try_except m h c = (c', Returns a).
Proof. unfold try_except. intros ->. reflexivity. Qed.

Lemma try_except_Raises m (h : exn -> M A) c c' e :
  m c = (c', Raises e) -> try_except m h c = h e c'.
Proof. unfold try_except. intros ->. reflexivity. Qed.
End Steps.

(** A guarded handler never lets an exception other than its own
    [HTTPException] with status 500 escape. *)
Lemma guarded_raises_500 {A} (body : M A) c c' e :
  try_except body reraise_500 c = (c', Raises e) ->
  exists cause, e = HTTPException 500 (Str_of cause).
Proof.
  unfold try_except, reraise_500, raise.
  destruct (body c) as [c1 [a|e1|]]; intros H; inversion H; subst; eauto.
Qed.

Lemma ObjectId_ok oid o c :
  ObjectId_parse oid = Some o -> ObjectId_ oid c = (c, Returns o).
Proof. unfold ObjectId_. intros ->. reflexivity. Qed.

Lemma ObjectId_invalid oid c :
  ObjectId_parse oid = None -> blanks_in_24 oid = false ->
  ObjectId_ oid c = (c, Raises (InvalidId oid)).
Proof. unfold ObjectId_. intros -> ->. reflexivity. Qed.

(** ** Filters made of equality criteria *)

Lemma equalities_singleton k v : equalities {[ k := Eq v ]}.
Proof. apply map_Forall_singleton. eauto. Qed.

Lemma equalities_empty : equalities ∅.
Proof. apply map_Forall_empty. Qed.

Lemma equalities_insert k v q : equalities q -> equalities (<[k := Eq v]> q).
Proof. intros H. apply map_Forall_insert_2; eauto. Qed.

Lemma equalities_check q c : equalities q -> check_query q c = (c, Returns tt).
Proof.
  intros Hq. unfold check_query.
  rewrite decide_True.
  - rewrite decide_True; [reflexivity|].
    intros k cr Hk. destruct (Hq k cr Hk) as [v ->]. reflexivity.
  - split.
    + intros k cr Hk. destruct (Hq k cr Hk) as [v ->]. discriminate.
    + apply Forall_forall. intros d _ k cr Hk.
      destruct (Hq k cr Hk) as [v ->]. reflexivity.
Qed.

Lemma find_checked q c :
  check_query q c = (c, Returns tt) ->
  find q c = (c, Returns (filter (doc_matches q) c)).
Proof. intros H. unfold find. rewrite (bind_Returns _ _ _ _ _ H). reflexivity. Qed.

Lemma find_all c : find ∅ c = (c, Returns c).
Proof.
  rewrite find_checked by (apply equalities_check, equalities_empty).
  f_equal. f_equal. induction c as [|d c IH]; [reflexivity|].
  rewrite filter_cons_True by apply map_Forall_empty. by rewrite IH.
Qed.

(** ** Updating and deleting the first match *)

Lemma rewrite_first_none q f c :
  Forall (fun d => ~ doc_matches q d) c -> rewrite_first q f c = (c, 0%nat).
Proof.
  induction 1 as [|d c Hd _ IH]; [reflexivity|].
  simpl. rewrite decide_False by assumption. by rewrite IH.
Qed.

Lemma rewrite_first_hit q f pre d post :
  Forall (fun d => ~ doc_matches q d) pre -> doc_matches q d ->
  rewrite_first q f (pre ++ d :: post)
  = (pre ++ match f d with Some d' => d' :: post | None => post end, 1%nat).
Proof.
  intros Hpre Hd. induction Hpre as [|x pre Hx _ IH].
  - simpl. by rewrite decide_True.
  - simpl. rewrite decide_False by assumption. by rewrite IH.
Qed.

(** Either nothing matches, or the collection splits at its first match. *)
Lemma first_match_split (P : document -> Prop) `{!forall d, Decision (P d)} c :
  Forall (fun d => ~ P d) c \/
  exists pre d post, c = pre ++ d :: post /\ Forall (fun d => ~ P d) pre /\ P d.
Proof.
  induction c as [|x c IH]; [by left|].
  destruct (decide (P x)) as [Hx|Hx].
  - right. exists [], x, c. auto.
  - destruct IH as [IH|(pre & d & post & -> & Hpre & Hd)].
    + left. by constructor.
    + right. exists (x :: pre), d, post. split; [reflexivity|]. split; [by constructor|done].
Qed.

Lemma update_one_miss q fields c :
  equalities q -> Forall (fun d => ~ doc_matches q d) c ->
  update_one q fields c = (c, Returns 0%nat).
Proof.
  intros Hq Hc. unfold update_one.
  rewrite (bind_Returns _ _ _ _ _ (equalities_check q c Hq)).
  by rewrite rewrite_first_none.
Qed.

Lemma update_one_hit q fields pre d post :
  equalities q -> Forall (fun d => ~ doc_matches q d) pre -> doc_matches q d ->
  update_one q fields (pre ++ d :: post)
  = (pre ++ (fields ∪ d) :: post, Returns 1%nat).
Proof.
  intros Hq Hpre Hd. unfold update_one.
  rewrite (bind_Returns _ _ _ _ _ (equalities_check q _ Hq)).
  by rewrite rewrite_first_hit.
Qed.

Lemma delete_one_miss q c :
  equalities q -> Forall (fun d => ~ doc_matches q d) c ->
  delete_one q c = (c, Returns 0%nat).
Proof.
  intros Hq Hc. unfold delete_one.
  rewrite (bind_Returns _ _ _ _ _ (equalities_check q c Hq)).
  by rewrite rewrite_first_none.
Qed.

Lemma delete_one_hit q pre d post :
  equalities q -> Forall (fun d => ~ doc_matches q d) pre -> doc_matches q d ->
  delete_one q (pre ++ d :: post) = (pre ++ post, Returns 1%nat).
Proof.
  intros Hq Hpre Hd. unfold delete_one.
  rewrite (bind_Returns _ _ _ _ _ (equalities_check q _ Hq)).
  by rewrite rewrite_first_hit.
Qed.

(** ** The matcher decides the language of the pattern *)

Lemma nullable_matches r : nullable r = true <-> matches r [].
Proof.
  split.
  - induction r; simpl; intros H; try discriminate.
    + constructor.
    + apply andb_prop in H as [H1 H2].
      change (@nil ascii) with (@nil ascii ++ []). constructor; auto.
    + apply orb_prop in H as [H|H]; [apply matches_alt_l | apply matches_alt_r]; auto.
    + constructor.
  - intros H. remember [] as w eqn:Hw. induction H; simpl; try discriminate; auto.
    + apply app_eq_nil in Hw as [-> ->]. rewrite IHmatches1, IHmatches2; auto.
    + rewrite IHmatches; auto.
    + rewrite IHmatches; auto. apply orb_true_r.
Qed.

Lemma deriv_sound x r w : matches (deriv x r) w -> matches r (x :: w).
Proof.
  revert w. induction r; simpl; intros w H.
  - inversion H.
  - inversion H.
  - destruct (eqb_nocase c x) eqn:E; inversion H; subst. by constructor.
  - destruct (ascii_code x =? 10)%N eqn:E; inversion H; subst.
    constructor. by apply N.eqb_neq.
  - destruct (nullable r1) eqn:E.
    + inversion H; subst.
      * match goal with Hc : matches (Cat _ _) _ |- _ => inversion Hc; subst end.
        change (x :: u ++ v) with ((x :: u) ++ v). constructor; auto.
      * change (x :: w) with ([] ++ x :: w). constructor; auto.
        by apply nullable_matches.
    + inversion H; subst.
      change (x :: u ++ v) with ((x :: u) ++ v). constructor; auto.
  - inversion H; subst; [apply matches_alt_l | apply matches_alt_r]; auto.
  - inversion H; subst.
    change (x :: u ++ v) with ((x :: u) ++ v). constructor; auto.
Qed.

Lemma deriv_complete x r w : matches r (x :: w) -> matches (deriv x r) w.
Proof.
  intros H. remember (x :: w) as xw eqn:E. revert w E.
  induction H; intros w E; simpl; try discriminate.
  - inversion E; subst. rewrite H. constructor.
  - inversion E; subst.
    apply N.eqb_neq in H. rewrite H. constructor.
  - destruct u as [|y u].
    + simpl in E. subst v.
      apply nullable_matches in H. rewrite H.
      apply matches_alt_r. auto.
    + inversion E; subst.
      assert (Hc : matches (Cat (deriv x r) s) (u ++ v)) by (constructor; auto).
      destruct (nullable r); [by apply matches_alt_l | done].
  - apply matches_alt_l. auto.
  - apply matches_alt_r. auto.
  - destruct u as [|y u].
    + simpl in E. apply (IHmatches2 _ E).
    + inversion E; subst. constructor; auto.
Qed.

Lemma match_here_spec r w :
  match_here r w = true <-> exists u v, w = u ++ v /\ matches r u.
Proof.
  revert r. induction w as [|x w IH]; intros r; simpl.
  - rewrite orb_false_r, nullable_matches. split.
    + intros H. exists [], []. auto.
    + intros (u & v & E & H). symmetry in E. apply app_eq_nil in E as [-> _]. done.
  - rewrite orb_true_iff, nullable_matches, IH. split.
    + intros [H|(u & v & -> & H)].
      * exists [], (x :: w). auto.
      * exists (x :: u), v. split; [done|]. by apply deriv_sound.
    + intros (u & v & E & H). destruct u as [|y u].
      * by left.
      * inversion E; subst. right. exists u, v. split; [done|].
        by apply deriv_complete.
Qed.

Lemma search_nil r : search r [] = match_here r [].
Proof. simpl. apply orb_false_r. Qed.

Lemma search_cons r x w : search r (x :: w) = match_here r (x :: w) || search r w.
Proof. reflexivity. Qed.

Lemma search_spec r w :
  search r w = true <-> exists pre u post, w = pre ++ u ++ post /\ matches r u.
Proof.
  induction w as [|x w IH].
  - rewrite search_nil, match_here_spec. split.
    + intros (u & v & E & H). exists [], u, v. auto.
    + intros (pre & u & post & E & H). symmetry in E.
      apply app_eq_nil in E as [-> E]. exists u, post. auto.
  - rewrite search_cons, orb_true_iff, match_here_spec, IH. split.
    + intros [(u & v & E & H)|(pre & u & post & -> & H)].
      * exists [], u, v. auto.
      * exists (x :: pre), u, post. auto.
    + intros (pre & u & post & E & H). destruct pre as [|y pre].
      * left. exists u, post. auto.
      * inversion E; subst. right. exists pre, u, post. auto.
Qed.

(** ** Plain filter texts *)

Lemma literal_matches l u : matches (literal l) u <-> same_nocase l u.
Proof.
  revert u. induction l as [|c l IH]; intros u; simpl.
  - split.
    + intros H. inversion H; subst. constructor.
    + intros H. inversion H; subst. constructor.
  - split.
    + intros H. inversion H; subst.
      match goal with Hc : matches (Chr _) _ |- _ => inversion Hc; subst end.
      constructor; [done|]. by apply IH.
    + intros H. inversion H as [|? y ? v Hy Hv]; subst.
      change (y :: v) with ([y] ++ v). constructor; [by constructor|]. by apply IH.
Qed.

Lemma seq_regex_literal l tail :
  seq_regex (rev (map (fun c => (Chr c, false)) l) ++ tail)
  = fold_left (fun acc a => Cat (fst a) acc) tail (literal l).
Proof.
  unfold seq_regex. rewrite fold_left_app. f_equal.
  rewrite <- fold_left_rev_right, rev_involutive.
  induction l as [|c l IH]; [reflexivity|]. simpl. by rewrite IH.
Qed.

Lemma pcre_step_plain st c :
  esc st = false -> plain_char c = true ->
  pcre_step st c = inr (push_atom (Chr c) st).
Proof.
  intros He Hc. unfold pcre_step. rewrite He.
  destruct c as [[] [] [] [] [] [] [] []]; vm_compute in Hc; try discriminate Hc;
    reflexivity.
Qed.

Lemma pcre_run_plain l st :
  esc st = false -> forallb plain_char l = true ->
  pcre_run st l
  = inr (mkPstate (mkFrame (alts (cur st))
                     (rev (map (fun c => (Chr c, false)) l) ++ atoms (cur st)))
           (outer st) false).
Proof.
  revert st. induction l as [|c l IH]; intros st He Hl; simpl.
  - destruct st as [[a t] o e]. simpl in *. by subst.
  - apply andb_prop in Hl as [Hc Hl].
    rewrite (pcre_step_plain _ _ He Hc).
    rewrite IH by done. simpl. by rewrite <- app_assoc.
Qed.

Lemma pcre_compile_plain p :
  plain p -> pcre_compile p = inr (literal (chars p)).
Proof.
  intros Hp. unfold pcre_compile.
  rewrite pcre_run_plain by done. simpl.
  unfold frame_regex. simpl.
  by rewrite (seq_regex_literal (chars p) []).
Qed.

(** Searching with a plain filter text is caseless substring search. *)
Lemma search_plain p s :
  search (literal (chars p)) (chars s) = true <-> contains_nocase p s.
Proof.
  rewrite search_spec. unfold contains_nocase.
  split; intros (pre & u & post & E & H); exists pre, u, post;
    (split; [done|]); by apply literal_matches.
Qed.

(** ** Identifiers in update, delete and search *)

Lemma by_id_matches o d : doc_matches {[ "_id" := Eq (VOid o) ]} d <-> has_id o d.
Proof. unfold doc_matches, has_id. rewrite map_Forall_singleton. reflexivity. Qed.

Lemma absent_by_id o c :
  absent o c -> Forall (fun d => ~ doc_matches {[ "_id" := Eq (VOid o) ]} d) c.
Proof. intros H. eapply Forall_impl; [exact H|]. intros d Hd. by rewrite by_id_matches. Qed.

Lemma answers_500_status {A} (handler : M A) cause c success :
  answers_500 handler cause c ->
  fst (handler c) = c /\ http_status success (snd (handler c)) = Some 500%nat.
Proof. unfold answers_500. intros ->. auto. Qed.

(** Runs a guarded handler up to the point where the identifier has been
    parsed and the store call has found nothing. *)
Ltac miss Hid Hc :=
  unfold answers_500, try_except, bind;
  rewrite (ObjectId_ok _ _ _ Hid);
  first [ rewrite update_one_miss by (try apply equalities_singleton; by apply absent_by_id)
        | rewrite delete_one_miss by (try apply equalities_singleton; by apply absent_by_id) ];
  reflexivity.

Section Missing_target.
Variables (id : string) (o : ObjectId) (c : collection).
Hypothesis (Hid : ObjectId_parse id = Some o) (Hc : absent o c).

Let not_found (what : string) : exn := HTTPException 404 (Literal what).

Lemma update_employee_missing p :
  answers_500 (employee.update_employee id p) (not_found "Employee not found") c.
Proof. unfold employee.update_employee. miss Hid Hc. Qed.

Lemma update_chat_missing p :
  answers_500 (chat.update_chat id p) (not_found "Chat not found") c.
Proof. unfold chat.update_chat. miss Hid Hc. Qed.

Lemma update_document_missing p :
  answers_500 (document.update_document id p) (not_found "Document not found") c.
Proof. unfold document.update_document. miss Hid Hc. Qed.

Lemma update_expense_missing p :
  answers_500 (expense.update_expense id p) (not_found "Expense not found") c.
Proof. unfold expense.update_expense. miss Hid Hc. Qed.

Lemma update_meeting_missing p :
  answers_500 (meeting.update_meeting id p) (not_found "Meeting not found") c.
Proof. unfold meeting.update_meeting. miss Hid Hc. Qed.

Lemma update_project_missing p :
  answers_500 (project.update_project id p) (not_found "Project not found") c.
Proof. unfold project.update_project. miss Hid Hc. Qed.

Lemma delete_employee_missing :
  answers_500 (employee.delete_employee id) (not_found "Employee not found") c.
Proof. unfold employee.delete_employee. miss Hid Hc. Qed.

Lemma delete_chat_missing :
  answers_500 (chat.delete_chat id) (not_found "Chat not found") c.
Proof. unfold chat.delete_chat. miss Hid Hc. Qed.

Lemma delete_document_missing :
  answers_500 (document.delete_document id) (not_found "Document not found") c.
Proof. unfold document.delete_document. miss Hid Hc. Qed.

Lemma delete_expense_missing :
  answers_500 (expense.delete_expense id) (not_found "Expense not found") c.
Proof. unfold expense.delete_expense. miss Hid Hc. Qed.

Lemma delete_meeting_missing :
  answers_500 (meeting.delete_meeting id) (not_found "Meeting not found") c.
Proof. unfold meeting.delete_meeting. miss Hid Hc. Qed.

Lemma delete_project_missing :
  answers_500 (project.delete_project id) (not_found "Project not found") c.
Proof. unfold project.delete_project. miss Hid Hc. Qed.
End Missing_target.

(** Every update and delete handler answers a well-formed identifier that
    names no stored document with status 500 and leaves the collection as it
    was. *)
Lemma every_missing_target_answers_500 id o c :
  ObjectId_parse id = Some o -> absent o c ->
  ((forall p, answers_500 (employee.update_employee id p)
                (HTTPException 404 (Literal "Employee not found")) c)
   /\ (forall p, answers_500 (chat.update_chat id p)
                   (HTTPException 404 (Literal "Chat not found")) c)
   /\ (forall p, answers_500 (document.update_document id p)
                   (HTTPException 404 (Literal "Document not found")) c)
   /\ (forall p, answers_500 (expense.update_expense id p)
                   (HTTPException 404 (Literal "Expense not found")) c)
   /\ (forall p, answers_500 (meeting.update_meeting id p)
                   (HTTPException 404 (Literal "Meeting not found")) c)
   /\ (forall p, answers_500 (project.update_project id p)
                   (HTTPException 404 (Literal "Project not found")) c))
  /\ answers_500 (employee.delete_employee id)
       (HTTPException 404 (Literal "Employee not found")) c
  /\ answers_500 (chat.delete_chat id)
       (HTTPException 404 (Literal "Chat not found")) c
  /\ answers_500 (document.delete_document id)
       (HTTPException 404 (Literal "Document not found")) c
  /\ answers_500 (expense.delete_expense id)
       (HTTPException 404 (Literal "Expense not found")) c
  /\ answers_500 (meeting.delete_meeting id)
       (HTTPException 404 (Literal "Meeting not found")) c
  /\ answers_500 (project.delete_project id)
       (HTTPException 404 (Literal "Project not found")) c.
Proof.
  intros Hid Hc. repeat split; intros;
    eauto using update_employee_missing, update_chat_missing, update_document_missing,
      update_expense_missing, update_meeting_missing, update_project_missing,
      delete_employee_missing, delete_chat_missing, delete_document_missing,
      delete_expense_missing, delete_meeting_missing, delete_project_missing.
Qed.

Lemma every_missing_target_answers_500_witness :
  ObjectId_parse "000000000000000000000002" = Some (oid 2)
  /\ absent (oid 2) (rows project.dict [(oid 1, apollo)])
  /\ answers_500 (project.delete_project "000000000000000000000002")
       (HTTPException 404 (Literal "Project not found"))
       (rows project.dict [(oid 1, apollo)]).
Proof.
  assert (Hid : ObjectId_parse "000000000000000000000002" = Some (oid 2)) by reflexivity.
  assert (Hc : absent (oid 2) (rows project.dict [(oid 1, apollo)])).
  { repeat constructor; vm_compute; congruence. }
  split; [exact Hid|]. split; [exact Hc|].
  destruct (every_missing_target_answers_500 _ _ _ Hid Hc) as (_ & H).
  apply H.
Defined.

(** C1, at a concrete request.  A chat is stored under identifier 1.
    Deleting the well-formed identifier 2, which names no stored chat, leaves
    the collection as it was, but the [HTTPException] with status 404 that
    [delete_chat] raises is caught by the handler's own [except Exception]
    and raised again with status 500: the caller sees 500, not 404.  The same
    happens in [update_employee]. *)
Theorem missing_target_answers_500 :
  let chats := rows chat.dict [(oid 1, hello)] in
  let employees := rows employee.dict [(oid 1, asha)] in
  let id := "000000000000000000000002" in
  chat.delete_chat id chats
    = (chats, Raises (HTTPException 500
                        (Str_of (HTTPException 404 (Literal "Chat not found")))))
  /\ http_status 204 (snd (chat.delete_chat id chats)) = Some 500%nat
  /\ employee.update_employee id bo employees
    = (employees, Raises (HTTPException 500
                            (Str_of (HTTPException 404 (Literal "Employee not found")))))
  /\ http_status 200 (snd (employee.update_employee id bo employees)) = Some 500%nat.
Proof.
  intros chats employees id.
  assert (Hid : ObjectId_parse id = Some (oid 2)) by reflexivity.
  assert (Hc : absent (oid 2) chats) by (repeat constructor; vm_compute; congruence).
  assert (He : absent (oid 2) employees) by (repeat constructor; vm_compute; congruence).
  pose proof (delete_chat_missing id _ chats Hid Hc) as H1.
  pose proof (update_employee_missing id _ employees Hid He bo) as H2.
  unfold answers_500 in H1, H2. rewrite H1, H2. auto.
Qed.

(** ** Identifiers that do not parse *)

Ltac invalid Hid Hb :=
  unfold answers_500, try_except, bind;
  rewrite (ObjectId_invalid _ _ Hid Hb); reflexivity.

Ltac invalid_filter Hid Hb Hne :=
  unfold answers_500, try_except, bind, if_truthy;
  rewrite Hne, (ObjectId_invalid _ _ Hid Hb); reflexivity.

Lemma truthy_nonempty (s : string) : s <> "" -> truthy s = true.
Proof. destruct s; [congruence | reflexivity]. Qed.

(** C4, as the code has it.  In every handler that takes an identifier, a
    string that [ObjectId] refuses is answered by an [HTTPException] with
    status 500 whose detail is the text of [InvalidId], and the collection is
    left as it was.  For update and delete this holds for every such string;
    a search applies its [id] filter only when the string is not empty.  (The
    chat search has no [id] filter.  A string is refused when it is not 24
    hexadecimal digits; the texts of 24 characters with blanks in them, which
    the model of bson does not decide, are set aside.) *)
Theorem invalid_identifier_answers_500 (id : string) (c : collection) :
  ObjectId_parse id = None -> blanks_in_24 id = false ->
  ((forall p, answers_500 (employee.update_employee id p) (InvalidId id) c)
   /\ (forall p, answers_500 (chat.update_chat id p) (InvalidId id) c)
   /\ (forall p, answers_500 (document.update_document id p) (InvalidId id) c)
   /\ (forall p, answers_500 (expense.update_expense id p) (InvalidId id) c)
   /\ (forall p, answers_500 (meeting.update_meeting id p) (InvalidId id) c)
   /\ (forall p, answers_500 (project.update_project id p) (InvalidId id) c))
  /\ (answers_500 (employee.delete_employee id) (InvalidId id) c
      /\ answers_500 (chat.delete_chat id) (InvalidId id) c
      /\ answers_500 (document.delete_document id) (InvalidId id) c
      /\ answers_500 (expense.delete_expense id) (InvalidId id) c
      /\ answers_500 (meeting.delete_meeting id) (InvalidId id) c
      /\ answers_500 (project.delete_project id) (InvalidId id) c)
  /\ (id <> "" ->
      (forall name position salary,
          answers_500 (employee.search_employees (Some id) name position salary)
            (InvalidId id) c)
      /\ (forall title uploaded_by,
             answers_500 (document.search_documents (Some id) title uploaded_by)
               (InvalidId id) c)
      /\ (forall title category incurred_by,
             answers_500 (expense.search_expenses (Some id) title category incurred_by)
               (InvalidId id) c)
      /\ (forall title organizer date,
             answers_500 (meeting.search_meetings (Some id) title organizer date)
               (InvalidId id) c)
      /\ (forall name status,
             answers_500 (project.search_projects (Some id) name status)
               (InvalidId id) c)).
Proof.
  intros Hid Hb. split; [|split].
  - repeat split; intros p.
    + unfold employee.update_employee. invalid Hid Hb.
    + unfold chat.update_chat. invalid Hid Hb.
    + unfold document.update_document. invalid Hid Hb.
    + unfold expense.update_expense. invalid Hid Hb.
    + unfold meeting.update_meeting. invalid Hid Hb.
    + unfold project.update_project. invalid Hid Hb.
  - repeat split.
    + unfold employee.delete_employee. invalid Hid Hb.
    + unfold chat.delete_chat. invalid Hid Hb.
    + unfold document.delete_document. invalid Hid Hb.
    + unfold expense.delete_expense. invalid Hid Hb.
    + unfold meeting.delete_meeting. invalid Hid Hb.
    + unfold project.delete_project. invalid Hid Hb.
  - intros Hne. apply truthy_nonempty in Hne. repeat split; intros.
    + unfold employee.search_employees, employee.search_query. invalid_filter Hid Hb Hne.
    + unfold document.search_documents, document.search_query. invalid_filter Hid Hb Hne.
    + unfold expense.search_expenses, expense.search_query. invalid_filter Hid Hb Hne.
    + unfold meeting.search_meetings, meeting.search_query. invalid_filter Hid Hb Hne.
    + unfold project.search_projects, project.search_query. invalid_filter Hid Hb Hne.
Qed.

Lemma invalid_identifier_answers_500_witness :
  ObjectId_parse "not-an-id" = None
  /\ blanks_in_24 "not-an-id" = false
  /\ answers_500 (document.delete_document "not-an-id") (InvalidId "not-an-id")
       (rows document.dict [(oid 1, report)]).
Proof.
  split; [reflexivity|]. split; [reflexivity|].
  apply (invalid_identifier_answers_500 "not-an-id" (rows document.dict [(oid 1, report)]));
    reflexivity.
Defined.

(** C4 as the spec words it fails: the status is 500, not 400. *)
Lemma invalid_identifier_not_400 :
  http_status 200 (snd (document.delete_document "not-an-id"
                          (rows document.dict [(oid 1, report)])))
  = Some 500%nat
  /\ http_status 200 (snd (document.delete_document "not-an-id"
                             (rows document.dict [(oid 1, report)])))
     <> Some 400%nat.
Proof. split; [reflexivity | discriminate]. Qed.

(** ** From stored rows to Records *)

Lemma for_each_Returns {A B} (f : A -> M B) (g : A -> B) l c :
  (forall a, a ∈ l -> f a c = (c, Returns (g a))) ->
  for_each f l c = (c, Returns (map g l)).
Proof.
  induction l as [|a l IH]; intros H; [reflexivity|].
  simpl. rewrite (bind_Returns _ _ _ _ _ (H a ltac:(left))).
  rewrite (bind_Returns _ _ _ _ _ (IH (fun x Hx => H x ltac:(by right)))).
  reflexivity.
Qed.

Lemma try_except_bind_Returns {A B} (m : M A) (k : A -> M B) h c c' a :
  m c = (c', Returns a) -> try_except (bind m k) h c = try_except (k a) h c'.
Proof. intros H. unfold try_except. by rewrite (bind_Returns _ _ _ _ _ H). Qed.

Lemma filter_rows {B} (dict : B -> document) q l :
  filter (doc_matches q) (rows dict l) = rows dict (selected q dict l).
Proof.
  unfold rows, selected. induction l as [|ob l IH]; [reflexivity|].
  simpl. destruct (decide (doc_matches q (row dict ob))) as [H|H].
  - rewrite !filter_cons_True by done. simpl. by rewrite IH.
  - rewrite !filter_cons_False by done. done.
Qed.

Lemma find_rows {B} (dict : B -> document) q l :
  check_query q (rows dict l) = (rows dict l, Returns tt) ->
  find q (rows dict l) = (rows dict l, Returns (rows dict (selected q dict l))).
Proof. intros H. rewrite (find_checked _ _ H). by rewrite filter_rows. Qed.

Lemma for_each_map_Returns {X A B} (h : X -> A) (f : A -> M B) (g : X -> B) l c :
  (forall x, x ∈ l -> f (h x) c = (c, Returns (g x))) ->
  for_each f (map h l) c = (c, Returns (map g l)).
Proof.
  intros H. rewrite <- (map_map h (fun a => a)), map_id.
  induction l as [|a l IH]; [reflexivity|].
  simpl. rewrite (bind_Returns _ _ _ _ _ (H a ltac:(left))).
  rewrite (bind_Returns _ _ _ _ _ (IH (fun x Hx => H x ltac:(by right)))).
  reflexivity.
Qed.

(** The listing code shared by the document, expense, meeting and project
    routers, for any model that reads a stringified row back. *)
Section Listing.
Context {B R : Type}.
Variables (dict : B -> document) (Model_ : document -> M R)
          (record : ObjectId * B -> R).
Hypothesis Model_row : forall ob c,
  Model_ (<["id" := VStr (ObjectId_str (fst ob))]>
            (<["_id" := VStr (ObjectId_str (fst ob))]> (row dict ob))) c
  = (c, Returns (record ob)).

Let stringified (ob : ObjectId * B) : document :=
  <["_id" := VStr (ObjectId_str (fst ob))]> (row dict ob).

Lemma stringify_rows l c :
  stringify_ids (rows dict l) c = (c, Returns (map stringified l)).
Proof.
  unfold stringify_ids, rows. apply for_each_map_Returns.
  intros [o b] _. unfold row, getitem, bind. simpl. by rewrite lookup_insert_eq.
Qed.

Lemma with_id_key_rows l c :
  for_each with_id_key (map stringified l) c
  = (c, Returns (map (fun ob => <["id" := VStr (ObjectId_str (fst ob))]> (stringified ob)) l)).
Proof.
  apply for_each_map_Returns.
  intros [o b] _. unfold stringified, with_id_key, getitem, bind. simpl.
  by rewrite lookup_insert_eq.
Qed.

Lemma listing_rows l c : listing Model_ (rows dict l) c = (c, Returns (map record l)).
Proof.
  unfold listing.
  rewrite (bind_Returns _ _ _ _ _ (stringify_rows l c)).
  rewrite (bind_Returns _ _ _ _ _ (with_id_key_rows l c)).
  apply for_each_map_Returns. intros ob _. apply Model_row.
Qed.

End Listing.

Lemma Document_row ob c :
  document.Document_ (<["id" := VStr (ObjectId_str (fst ob))]>
                        (<["_id" := VStr (ObjectId_str (fst ob))]> (row document.dict ob))) c
  = (c, Returns (document_record ob)).
Proof.
  destruct ob as [o b]. destruct b. unfold document_record. simpl.
  generalize (ObjectId_str o). intros s. vm_compute; reflexivity.
Qed.

Lemma Expense_row ob c :
  expense.Expense_ (<["id" := VStr (ObjectId_str (fst ob))]>
                      (<["_id" := VStr (ObjectId_str (fst ob))]> (row expense.dict ob))) c
  = (c, Returns (expense_record ob)).
Proof.
  destruct ob as [o b]. destruct b. unfold expense_record. simpl.
  generalize (ObjectId_str o). intros s. vm_compute; reflexivity.
Qed.

Lemma Meeting_row ob c :
  meeting.Meeting_ (<["id" := VStr (ObjectId_str (fst ob))]>
                      (<["_id" := VStr (ObjectId_str (fst ob))]> (row meeting.dict ob))) c
  = (c, Returns (meeting_record ob)).
Proof.
  destruct ob as [o b]. destruct b. unfold meeting_record. simpl.
  generalize (ObjectId_str o). intros s. vm_compute; reflexivity.
Qed.

Lemma Project_row ob c :
  project.Project_ (<["id" := VStr (ObjectId_str (fst ob))]>
                      (<["_id" := VStr (ObjectId_str (fst ob))]> (row project.dict ob))) c
  = (c, Returns (project_record ob)).
Proof.
  destruct ob as [o [n d s e st m]]. unfold project_record. simpl.
  generalize (ObjectId_str o). intros i. destruct e; vm_compute; reflexivity.
Qed.

Lemma to_response_row ob c :
  chat.to_response (row chat.dict ob) c = (c, Returns (chat_record ob)).
Proof.
  destruct ob as [o b]. destruct b.
  unfold chat.to_response, chat_record, row, getitem, bind. simpl.
  rewrite lookup_insert_eq. simpl.
  generalize (ObjectId_str o). intros s. vm_compute; reflexivity.
Qed.

Lemma chat_listing_rows l c :
  for_each chat.to_response (rows chat.dict l) c = (c, Returns (map chat_record l)).
Proof. apply for_each_map_Returns. intros ob _. apply to_response_row. Qed.

(** ** What a search with one filter returns *)

Lemma ObjectId_eqb_eq a b : ObjectId_eqb a b = true <-> a = b.
Proof.
  destruct a as [x], b as [y]. unfold ObjectId_eqb. simpl.
  rewrite N.eqb_eq. split; congruence.
Qed.

Lemma has_id_row {B} (dict : B -> document) o ob : has_id o (row dict ob) <-> fst ob = o.
Proof.
  unfold has_id, row. rewrite lookup_insert_eq. simpl.
  rewrite ObjectId_eqb_eq. split; congruence.
Qed.

Lemma check_plain_regex k p c :
  plain p ->
  Forall (fun d : document =>
            forallb (fun s => forallb is_ascii (chars s)) (subjects (d !! k)) = true) c ->
  check_query {[ k := Regex p "i" ]} c = (c, Returns tt).
Proof.
  intros Hp Hc. unfold check_query.
  rewrite decide_True.
  - rewrite decide_True; [reflexivity|].
    apply map_Forall_singleton. simpl. by rewrite (pcre_compile_plain p Hp).
  - split.
    + apply map_Forall_singleton. simpl. by rewrite (pcre_compile_plain p Hp).
    + eapply Forall_impl; [exact Hc|]. intros d Hd.
      by apply map_Forall_singleton.
Qed.

Section Search.
Context {B R : Type}.
Variables (dict : B -> document) (pipeline : list document -> M (list R))
          (record : ObjectId * B -> R).
Hypothesis pipeline_rows :
  forall l c, pipeline (rows dict l) c = (c, Returns (map record l)).

(** A search whose filter the server accepts returns the Records of the
    rows the filter selects. *)
Lemma search_rows q l :
  check_query q (rows dict l) = (rows dict l, Returns tt) ->
  try_except (docs <- find q ;; pipeline docs) reraise_500 (rows dict l)
  = (rows dict l, Returns (map record (selected q dict l))).
Proof.
  intros Hq. apply try_except_Returns.
  rewrite (bind_Returns _ _ _ _ _ (find_rows dict q l Hq)).
  apply pipeline_rows.
Qed.

Lemma search_by_id o l :
  returns_where (try_except (docs <- find {[ "_id" := Eq (VOid o) ]} ;; pipeline docs)
                   reraise_500)
    dict record l (fun ob => fst ob = o).
Proof.
  exists (selected {[ "_id" := Eq (VOid o) ]} dict l). split.
  - apply search_rows, equalities_check, equalities_singleton.
  - intros ob. unfold selected. rewrite list_elem_of_filter, by_id_matches, has_id_row.
    tauto.
Qed.

Section Field.
Variables (k : string) (field : B -> string).
Hypothesis row_field : forall ob, row dict ob !! k = Some (VStr (field (snd ob))).

Lemma search_by_value v l :
  returns_where (try_except (docs <- find {[ k := Eq (VStr v) ]} ;; pipeline docs)
                   reraise_500)
    dict record l (fun ob => field (snd ob) = v).
Proof.
  exists (selected {[ k := Eq (VStr v) ]} dict l). split.
  - apply search_rows, equalities_check, equalities_singleton.
  - intros ob. unfold selected, doc_matches.
    rewrite list_elem_of_filter, map_Forall_singleton, row_field. simpl.
    rewrite String.eqb_eq. split; intros [H1 H2]; split; auto.
Qed.

Lemma search_by_pattern p l :
  plain p -> Forall (fun ob => ascii_text (field (snd ob))) l ->
  returns_where (try_except (docs <- find {[ k := Regex p "i" ]} ;; pipeline docs)
                   reraise_500)
    dict record l (fun ob => contains_nocase p (field (snd ob))).
Proof.
  intros Hp Hl. exists (selected {[ k := Regex p "i" ]} dict l). split.
  - apply search_rows, check_plain_regex; [done|].
    unfold rows. apply Forall_fmap. eapply Forall_impl; [exact Hl|].
    intros ob Hob. simpl. rewrite row_field. simpl. by rewrite Hob.
  - intros ob. unfold selected, doc_matches.
    rewrite list_elem_of_filter, map_Forall_singleton, row_field. simpl.
    rewrite (pcre_compile_plain p Hp). simpl.
    rewrite orb_false_r, search_plain. tauto.
Qed.
End Field.
End Search.

(** ** The search handlers, one filter at a time *)

Lemma returns_where_eq {B R} (h h' : M (list R)) (dict : B -> document) record l P :
  (forall c, h c = h' c) ->
  returns_where h' dict record l P -> returns_where h dict record l P.
Proof. intros E (found & H1 & H2). exists found. by rewrite E. Qed.

Lemma parsed_nonempty id o : ObjectId_parse id = Some o -> truthy id = true.
Proof. destruct id; [discriminate | reflexivity]. Qed.

(** Brings a search handler with one filter set to the shape of [search_rows]:
    the query is built, then the shared code runs. *)
Ltac one_filter Hne :=
  intros c; unfold try_except, bind, if_truthy; simpl;
  rewrite ?Hne; reflexivity.

Ltac one_id_filter Hid Hne :=
  intros c; unfold try_except, bind, if_truthy; simpl;
  rewrite Hne; simpl; rewrite (ObjectId_ok _ _ _ Hid); reflexivity.

Section Chat_search.
Let pipeline := for_each chat.to_response.

Lemma chat_message_pattern :
  by_pattern (fun p => chat.search_chats (Some p) None None)
    chat.dict chat_record chat.message.
Proof.
  intros l p Hne Hp Hl. apply truthy_nonempty in Hne.
  eapply returns_where_eq;
    [| apply (search_by_pattern chat.dict pipeline chat_record chat_listing_rows
                "message" chat.message); [by intros [o []] | done | done]].
  unfold chat.search_chats, chat.search_query. one_filter Hne.
Qed.

Lemma chat_sender_equality :
  by_equality (fun v => chat.search_chats None (Some v) None)
    chat.dict chat_record chat.sender.
Proof.
  intros l v Hne. apply truthy_nonempty in Hne.
  eapply returns_where_eq;
    [| apply (search_by_value chat.dict pipeline chat_record chat_listing_rows
                "sender" chat.sender); by intros [o []]].
  unfold chat.search_chats, chat.search_query. one_filter Hne.
Qed.

Lemma chat_timestamp_equality :
  by_equality (fun v => chat.search_chats None None (Some v))
    chat.dict chat_record chat.timestamp.
Proof.
  intros l v Hne. apply truthy_nonempty in Hne.
  eapply returns_where_eq;
    [| apply (search_by_value chat.dict pipeline chat_record chat_listing_rows
                "timestamp" chat.timestamp); by intros [o []]].
  unfold chat.search_chats, chat.search_query. one_filter Hne.
Qed.
End Chat_search.

Section Document_search.
Let pipeline := listing document.Document_.
Let pipeline_rows := listing_rows document.dict document.Document_ document_record Document_row.

Lemma document_id_identifier :
  by_identifier (fun id => document.search_documents (Some id) None None) document.dict document_record.
Proof.
  intros l id o Hid. pose proof (parsed_nonempty _ _ Hid) as Hne.
  eapply returns_where_eq;
    [| apply (search_by_id document.dict pipeline document_record pipeline_rows o)].
  unfold document.search_documents, document.search_query. one_id_filter Hid Hne.
Qed.

Lemma document_title_pattern :
  by_pattern (fun p => document.search_documents None (Some p) None) document.dict document_record document.title.
Proof.
  intros l p Hne Hp Hl. apply truthy_nonempty in Hne.
  eapply returns_where_eq;
    [| apply (search_by_pattern document.dict pipeline document_record pipeline_rows
                "title" document.title); [by intros [o []] | done | done]].
  unfold document.search_documents, document.search_query. one_filter Hne.
Qed.

Lemma document_uploaded_by_pattern :
  by_pattern (fun p => document.search_documents None None (Some p)) document.dict document_record document.uploaded_by.
Proof.
  intros l p Hne Hp Hl. apply truthy_nonempty in Hne.
  eapply returns_where_eq;
    [| apply (search_by_pattern document.dict pipeline document_record pipeline_rows
                "uploaded_by" document.uploaded_by); [by intros [o []] | done | done]].
  unfold document.search_documents, document.search_query. one_filter Hne.
Qed.
End Document_search.

Section Expense_search.
Let pipeline := listing expense.Expense_.
Let pipeline_rows := listing_rows expense.dict expense.Expense_ expense_record Expense_row.

Lemma expense_id_identifier :
  by_identifier (fun id => expense.search_expenses (Some id) None None None) expense.dict expense_record.
Proof.
  intros l id o Hid. pose proof (parsed_nonempty _ _ Hid) as Hne.
  eapply returns_where_eq;
    [| apply (search_by_id expense.dict pipeline expense_record pipeline_rows o)].
  unfold expense.search_expenses, expense.search_query. one_id_filter Hid Hne.
Qed.

Lemma expense_title_pattern :
  by_pattern (fun p => expense.search_expenses None (Some p) None None) expense.dict expense_record expense.title.
Proof.
  intros l p Hne Hp Hl. apply truthy_nonempty in Hne.
  eapply returns_where_eq;
    [| apply (search_by_pattern expense.dict pipeline expense_record pipeline_rows
                "title" expense.title); [by intros [o []] | done | done]].
  unfold expense.search_expenses, expense.search_query. one_filter Hne.
Qed.

Lemma expense_category_pattern :
  by_pattern (fun p => expense.search_expenses None None (Some p) None) expense.dict expense_record expense.category.
Proof.
  intros l p Hne Hp Hl. apply truthy_nonempty in Hne.
  eapply returns_where_eq;
    [| apply (search_by_pattern expense.dict pipeline expense_record pipeline_rows
                "category" expense.category); [by intros [o []] | done | done]].
  unfold expense.search_expenses, expense.search_query. one_filter Hne.
Qed.

Lemma expense_incurred_by_pattern :
  by_pattern (fun p => expense.search_expenses None None None (Some p)) expense.dict expense_record expense.incurred_by.
Proof.
  intros l p Hne Hp Hl. apply truthy_nonempty in Hne.
  eapply returns_where_eq;
    [| apply (search_by_pattern expense.dict pipeline expense_record pipeline_rows
                "incurred_by" expense.incurred_by); [by intros [o []] | done | done]].
  unfold expense.search_expenses, expense.search_query. one_filter Hne.
Qed.
End Expense_search.

Section Meeting_search.
Let pipeline := listing meeting.Meeting_.
Let pipeline_rows := listing_rows meeting.dict meeting.Meeting_ meeting_record Meeting_row.

Lemma meeting_id_identifier :
  by_identifier (fun id => meeting.search_meetings (Some id) None None None) meeting.dict meeting_record.
Proof.
  intros l id o Hid. pose proof (parsed_nonempty _ _ Hid) as Hne.
  eapply returns_where_eq;
    [| apply (search_by_id meeting.dict pipeline meeting_record pipeline_rows o)].
  unfold meeting.search_meetings, meeting.search_query. one_id_filter Hid Hne.
Qed.

Lemma meeting_title_pattern :
  by_pattern (fun p => meeting.search_meetings None (Some p) None None) meeting.dict meeting_record meeting.title.
Proof.
  intros l p Hne Hp Hl. apply truthy_nonempty in Hne.
  eapply returns_where_eq;
    [| apply (search_by_pattern meeting.dict pipeline meeting_record pipeline_rows
                "title" meeting.title); [by intros [o []] | done | done]].
  unfold meeting.search_meetings, meeting.search_query. one_filter Hne.
Qed.

Lemma meeting_organizer_pattern :
  by_pattern (fun p => meeting.search_meetings None None (Some p) None) meeting.dict meeting_record meeting.organizer.
Proof.
  intros l p Hne Hp Hl. apply truthy_nonempty in Hne.
  eapply returns_where_eq;
    [| apply (search_by_pattern meeting.dict pipeline meeting_record pipeline_rows
                "organizer" meeting.organizer); [by intros [o []] | done | done]].
  unfold meeting.search_meetings, meeting.search_query. one_filter Hne.
Qed.

Lemma meeting_date_equality :
  by_equality (fun v => meeting.search_meetings None None None (Some v)) meeting.dict meeting_record meeting.date.
Proof.
  intros l v Hne. apply truthy_nonempty in Hne.
  eapply returns_where_eq;
    [| apply (search_by_value meeting.dict pipeline meeting_record pipeline_rows
                "date" meeting.date); by intros [o []]].
  unfold meeting.search_meetings, meeting.search_query. one_filter Hne.
Qed.
End Meeting_search.

Section Project_search.
Let pipeline := listing project.Project_.
Let pipeline_rows := listing_rows project.dict project.Project_ project_record Project_row.

Lemma project_id_identifier :
  by_identifier (fun id => project.search_projects (Some id) None None) project.dict project_record.
Proof.
  intros l id o Hid. pose proof (parsed_nonempty _ _ Hid) as Hne.
  eapply returns_where_eq;
    [| apply (search_by_id project.dict pipeline project_record pipeline_rows o)].
  unfold project.search_projects, project.search_query. one_id_filter Hid Hne.
Qed.

Lemma project_name_pattern :
  by_pattern (fun p => project.search_projects None (Some p) None) project.dict project_record project.name.
Proof.
  intros l p Hne Hp Hl. apply truthy_nonempty in Hne.
  eapply returns_where_eq;
    [| apply (search_by_pattern project.dict pipeline project_record pipeline_rows
                "name" project.name); [by intros [o []] | done | done]].
  unfold project.search_projects, project.search_query. one_filter Hne.
Qed.

Lemma project_status_pattern :
  by_pattern (fun p => project.search_projects None None (Some p)) project.dict project_record project.status.
Proof.
  intros l p Hne Hp Hl. apply truthy_nonempty in Hne.
  eapply returns_where_eq;
    [| apply (search_by_pattern project.dict pipeline project_record pipeline_rows
                "status" project.status); [by intros [o []] | done | done]].
  unfold project.search_projects, project.search_query. one_filter Hne.
Qed.
End Project_search.

(** ** String filters (C5) *)

(** C5 as the spec words it fails.  The stored chat was sent by "Alice"; the
    sender filter "alice" is contained in that name up to letter case, yet
    the search returns nothing: [search_chats] compares the sender by
    equality. *)
Lemma sender_filter_is_case_sensitive :
  contains_nocase "alice" (chat.sender hello)
  /\ snd (chat.search_chats None (Some "alice") None (rows chat.dict [(oid 1, hello)]))
     = Returns [].
Proof.
  split.
  - exists [], (chars "Alice"), []. split; [reflexivity|].
    repeat constructor.
  - vm_compute; reflexivity.
Qed.

(** A filter text is a pattern, not a substring: the stored title "a+b"
    contains the filter "a+b", and the search passes it by, because the
    pattern asks for one or more "a" followed by "b". *)
Lemma pattern_is_not_substring :
  let plus := {| document.title := "a+b"; document.description := "";
                 document.uploaded_by := "Bo" |} in
  contains_nocase "a+b" (document.title plus)
  /\ snd (document.search_documents None (Some "a+b") None
            (rows document.dict [(oid 1, plus)]))
     = Returns [].
Proof.
  split.
  - exists [], (chars "a+b"), []. split; [reflexivity|].
    repeat constructor.
  - vm_compute; reflexivity.
Qed.

(** C5, as the code has it.  The parameters that the handlers turn into a
    [$regex] criterion with option [i] return, for a plain non-empty filter
    over stored ASCII text, exactly the records whose field contains the
    filter up to letter case.  The chat sender, the chat timestamp and the
    meeting date are compared by equality: only the records whose field is
    the filter text itself come back.  For the employee search the statement
    is about the query it builds: a pattern for the name, an equality for
    the position. *)
Theorem string_filters :
  by_pattern (fun p => chat.search_chats (Some p) None None)
    chat.dict chat_record chat.message
  /\ by_equality (fun v => chat.search_chats None (Some v) None)
       chat.dict chat_record chat.sender
  /\ by_equality (fun v => chat.search_chats None None (Some v))
       chat.dict chat_record chat.timestamp
  /\ by_pattern (fun p => document.search_documents None (Some p) None)
       document.dict document_record document.title
  /\ by_pattern (fun p => document.search_documents None None (Some p))
       document.dict document_record document.uploaded_by
  /\ by_pattern (fun p => expense.search_expenses None (Some p) None None)
       expense.dict expense_record expense.title
  /\ by_pattern (fun p => expense.search_expenses None None (Some p) None)
       expense.dict expense_record expense.category
  /\ by_pattern (fun p => expense.search_expenses None None None (Some p))
       expense.dict expense_record expense.incurred_by
  /\ by_pattern (fun p => meeting.search_meetings None (Some p) None None)
       meeting.dict meeting_record meeting.title
  /\ by_pattern (fun p => meeting.search_meetings None None (Some p) None)
       meeting.dict meeting_record meeting.organizer
  /\ by_equality (fun v => meeting.search_meetings None None None (Some v))
       meeting.dict meeting_record meeting.date
  /\ by_pattern (fun p => project.search_projects None (Some p) None)
       project.dict project_record project.name
  /\ by_pattern (fun p => project.search_projects None None (Some p))
       project.dict project_record project.status
  /\ (forall p c,
         p <> "" ->
         employee.search_query None (Some p) None None c
         = (c, Returns {[ "name" := Regex p "i" ]}))
  /\ (forall v c,
         v <> "" ->
         employee.search_query None None (Some v) None c
         = (c, Returns {[ "position" := Eq (VStr v) ]})).
Proof.
  split; [apply chat_message_pattern|].
  split; [apply chat_sender_equality|].
  split; [apply chat_timestamp_equality|].
  split; [apply document_title_pattern|].
  split; [apply document_uploaded_by_pattern|].
  split; [apply expense_title_pattern|].
  split; [apply expense_category_pattern|].
  split; [apply expense_incurred_by_pattern|].
  split; [apply meeting_title_pattern|].
  split; [apply meeting_organizer_pattern|].
  split; [apply meeting_date_equality|].
  split; [apply project_name_pattern|].
  split; [apply project_status_pattern|].
  split; intros x c Hne; apply truthy_nonempty in Hne;
    unfold employee.search_query, if_truthy, bind; simpl; by rewrite Hne.
Qed.

(** The example of the spec: "Quarterly Report" is found by "quarterly". *)
Lemma string_filters_witness :
  let quarterly := {| document.title := "Quarterly Report";
                      document.description := "Q3 figures";
                      document.uploaded_by := "Asha" |} in
  "quarterly" <> ""
  /\ plain "quarterly"
  /\ Forall (fun ob => ascii_text (document.title (snd ob))) [(oid 1, quarterly)]
  /\ returns_where (document.search_documents None (Some "quarterly") None)
       document.dict document_record [(oid 1, quarterly)]
       (fun ob => contains_nocase "quarterly" (document.title (snd ob))).
Proof.
  intros quarterly.
  assert (Hne : "quarterly" <> "") by discriminate.
  assert (Hp : plain "quarterly") by reflexivity.
  assert (Hl : Forall (fun ob => ascii_text (document.title (snd ob)))
                 [(oid 1, quarterly)]) by (repeat constructor).
  repeat split; try assumption.
  destruct string_filters as (_ & _ & _ & H & _).
  exact (H [(oid 1, quarterly)] "quarterly" Hne Hp Hl).
Defined.

(** ** Exact filters (C6) *)

(** C6 as the spec words it fails.  The stored project has status "Active";
    the status filter "act" is a different text, yet the project is
    returned: [search_projects] matches the status by caseless pattern. *)
Lemma status_filter_is_not_exact :
  project.status apollo <> "act"
  /\ snd (project.search_projects None None (Some "act")
            (rows project.dict [(oid 1, apollo)]))
     = Returns [project_record (oid 1, apollo)].
Proof. split; [discriminate | vm_compute; reflexivity]. Qed.

Lemma salary_criterion s ob :
  doc_matches {[ "salary" := Eq (VNum s) ]} (row employee.dict ob)
  <-> (employee.salary (snd ob) == s)%Q.
Proof.
  destruct ob as [o []]. unfold doc_matches. rewrite map_Forall_singleton.
  change (Qeq_bool s salary = true <-> (salary == s)%Q).
  rewrite Qeq_bool_iff. split; intros H; by symmetry.
Qed.

(** C6, as the code has it.  The [id] filter of the document, expense,
    meeting and project searches returns exactly the records stored under
    the ObjectId the filter text parses to.  A non-zero employee salary
    filter becomes an equality criterion of the store query, which selects
    the rows with that salary and no other.  The project status and the
    expense category are not compared by equality: they match by caseless
    pattern, like the other string filters. *)
Theorem exact_filters :
  by_identifier (fun id => document.search_documents (Some id) None None)
    document.dict document_record
  /\ by_identifier (fun id => expense.search_expenses (Some id) None None None)
       expense.dict expense_record
  /\ by_identifier (fun id => meeting.search_meetings (Some id) None None None)
       meeting.dict meeting_record
  /\ by_identifier (fun id => project.search_projects (Some id) None None)
       project.dict project_record
  /\ (forall s c,
         ~ (s == 0)%Q ->
         employee.search_query None None None (Some s) c
         = (c, Returns {[ "salary" := Eq (VNum s) ]}))
  /\ (forall s l ob,
         ob ∈ selected {[ "salary" := Eq (VNum s) ]} employee.dict l
         <-> ob ∈ l /\ (employee.salary (snd ob) == s)%Q)
  /\ by_pattern (fun p => project.search_projects None None (Some p))
       project.dict project_record project.status
  /\ by_pattern (fun p => expense.search_expenses None None (Some p) None)
       expense.dict expense_record expense.category.
Proof.
  split; [apply document_id_identifier|].
  split; [apply expense_id_identifier|].
  split; [apply meeting_id_identifier|].
  split; [apply project_id_identifier|].
  split; [|split; [|split; [apply project_status_pattern | apply expense_category_pattern]]].
  - intros s c Hs. unfold employee.search_query, if_truthy, bind. simpl.
    unfold truthy, truthy_float.
    destruct (Qeq_bool s 0) eqn:E; [|reflexivity].
    apply Qeq_bool_iff in E. contradiction.
  - intros s l ob. unfold selected. rewrite list_elem_of_filter, salary_criterion. tauto.
Qed.

Lemma exact_filters_witness :
  ObjectId_parse "000000000000000000000002" = Some (oid 2)
  /\ returns_where (project.search_projects (Some "000000000000000000000002") None None)
       project.dict project_record [(oid 1, apollo); (oid 2, apollo)]
       (fun ob => fst ob = oid 2).
Proof.
  split; [reflexivity|].
  destruct exact_filters as (_ & _ & _ & H & _).
  exact (H [(oid 1, apollo); (oid 2, apollo)] "000000000000000000000002" (oid 2) eq_refl).
Defined.

(** ** Create: the uniqueness check and the insert *)

Lemma find_one_equalities q c :
  equalities q -> find_one q c = (c, Returns (head (filter (doc_matches q) c))).
Proof.
  intros Hq. unfold find_one.
  rewrite (bind_Returns _ _ _ _ _ (find_checked q c (equalities_check q c Hq))).
  reflexivity.
Qed.

Lemma head_filter_None {A} (P : A -> Prop) {Pdec : forall x, Decision (P x)} l :
  Forall (fun x => ~ P x) l -> head (filter P l) = None.
Proof.
  induction 1 as [|x l Hx _ IH]; [reflexivity|].
  by rewrite filter_cons_False.
Qed.

Lemma head_filter_Some {A} (P : A -> Prop) {Pdec : forall x, Decision (P x)} l :
  Exists P l -> exists x, head (filter P l) = Some x /\ P x.
Proof.
  induction l as [|y l IH]; intros H; [by apply Exists_nil in H|].
  destruct (decide (P y)) as [Hy|Hy].
  - exists y. by rewrite filter_cons_True.
  - rewrite filter_cons_False by done. apply IH.
    apply Exists_cons in H as [H|H]; [contradiction | done].
Qed.

(** A document that satisfies an equality on a string is not the empty
    dict, hence true for [if existing:]. *)
Lemma matching_doc_truthy k t q (d : document) :
  doc_matches (<[k := Eq (VStr t)]> q) d -> truthy (Some d) = true.
Proof.
  intros H. specialize (H k (Eq (VStr t)) (lookup_insert_eq _ _ _)).
  simpl in H. unfold truthy, truthy_optional, truthy, truthy_dict.
  rewrite bool_decide_eq_false_2; [reflexivity|].
  intros ->. rewrite lookup_empty in H. discriminate.
Qed.

Lemma insert_one_fresh {B} (dict : B -> document) g b l :
  dict b !! "_id" = None -> Forall (fun ob => fst ob <> g) l ->
  insert_one g (dict b) (rows dict l) = (rows dict (l ++ [(g, b)]), Returns g).
Proof.
  intros Hb Hl. unfold insert_one. rewrite Hb.
  replace (existsb _ _) with false.
  - unfold rows. by rewrite map_app.
  - symmetry. apply not_true_is_false. intros H.
    apply existsb_exists in H as (d & Hd & Hg).
    apply in_map_iff in Hd as (ob & <- & Hob).
    apply (proj1 (has_id_row dict g ob)) in Hg.
    apply list_elem_of_In in Hob.
    by apply (proj1 (Forall_forall _ _) Hl ob Hob).
Qed.

(** The title (or name) check of create on a populated collection. *)
Section Key_check.
Context {B : Type}.
Variables (dict : B -> document) (k : string) (key : B -> string).
Hypothesis row_key : forall ob, row dict ob !! k = Some (VStr (key (snd ob))).

Lemma key_matches t ob :
  doc_matches {[ k := Eq (VStr t) ]} (row dict ob) <-> key (snd ob) = t.
Proof.
  unfold doc_matches. rewrite map_Forall_singleton, row_key. simpl.
  rewrite String.eqb_eq. split; congruence.
Qed.

Lemma find_one_key_absent t l :
  Forall (fun ob => key (snd ob) <> t) l ->
  find_one {[ k := Eq (VStr t) ]} (rows dict l) = (rows dict l, Returns None).
Proof.
  intros Hl. rewrite find_one_equalities by apply equalities_singleton.
  rewrite head_filter_None; [reflexivity|].
  unfold rows. apply Forall_fmap. eapply Forall_impl; [exact Hl|].
  intros ob Hob. simpl. by rewrite key_matches.
Qed.
End Key_check.

(** A key that some stored document already carries: the check finds a
    document, and that document is true. *)
Lemma find_one_key_present k t (c : collection) :
  Exists (fun d : document => d !! k = Some (VStr t)) c ->
  exists d, find_one {[ k := Eq (VStr t) ]} c = (c, Returns (Some d))
            /\ truthy (Some d) = true.
Proof.
  intros H. rewrite find_one_equalities by apply equalities_singleton.
  destruct (head_filter_Some (doc_matches {[ k := Eq (VStr t) ]}) c) as (d & Hd & Hm).
  - eapply Exists_impl; [exact H|]. intros d Hd.
    apply map_Forall_singleton. simpl. rewrite Hd. simpl. apply String.eqb_refl.
  - exists d. rewrite Hd. split; [reflexivity|].
    by apply (matching_doc_truthy k t ∅).
Qed.

(** The model a handler builds from the payload's dict once [_id] and [id]
    hold the identifier text. *)
Lemma Document_payload b s c :
  document.Document_ (<["id" := VStr s]> (<["_id" := VStr s]> (document.dict b))) c
  = (c, Returns {| document.base := b; document.id := s |}).
Proof. destruct b. vm_compute; reflexivity. Qed.

Lemma Expense_payload b s c :
  expense.Expense_ (<["id" := VStr s]> (<["_id" := VStr s]> (expense.dict b))) c
  = (c, Returns {| expense.base := b; expense.id := s |}).
Proof. destruct b. vm_compute; reflexivity. Qed.

Lemma Meeting_payload b s c :
  meeting.Meeting_ (<["id" := VStr s]> (<["_id" := VStr s]> (meeting.dict b))) c
  = (c, Returns {| meeting.base := b; meeting.id := s |}).
Proof. destruct b. vm_compute; reflexivity. Qed.

Lemma Project_payload b s c :
  project.Project_ (<["id" := VStr s]> (<["_id" := VStr s]> (project.dict b))) c
  = (c, Returns {| project.base := b; project.id := s |}).
Proof. destruct b as [? ? ? [?|] ? ?]; vm_compute; reflexivity. Qed.

Lemma chat_with_keyword b s c :
  with_keyword "id" (VStr s) (<["_id" := VStr s]> (chat.dict b)) c
  = (c, Returns (<["id" := VStr s]> (<["_id" := VStr s]> (chat.dict b)))).
Proof.
  unfold with_keyword.
  replace (<["_id" := VStr s]> (chat.dict b) !! "id") with (@None value); [reflexivity|].
  destruct b. vm_compute; reflexivity.
Qed.

Lemma ChatResponse_payload b s c :
  chat.ChatResponse_ (<["id" := VStr s]> (<["_id" := VStr s]> (chat.dict b))) c
  = (c, Returns {| chat.id := s; chat.fields := b |}).
Proof. destruct b. vm_compute; reflexivity. Qed.

(** A payload's dict has no identifier of its own. *)
Lemma Employee_needs_id kw c :
  kw !! "id" = None ->
  employee.Employee_ kw c = (c, Raises (ValidationError "Employee")).
Proof.
  intros H. unfold employee.Employee_.
  assert (Hi : field_str kw "id" = None) by (unfold field_str; by rewrite H).
  destruct (field_str kw "name"), (field_str kw "position"), (field_float kw "salary");
    simpl; rewrite ?Hi; reflexivity.
Qed.

Ltac steps :=
  cbv beta iota zeta
      delta [bind try_except raise_if ret raise reraise_500 truthy truthy_optional
             getitem lift_option Nat.eqb].

Ltac created Hfind Hb Hl model_payload :=
  steps; rewrite Hfind; steps;
  rewrite (insert_one_fresh _ _ _ _ Hb Hl); steps;
  rewrite lookup_insert_eq; steps;
  rewrite model_payload; reflexivity.

Lemma create_document_fresh g b l :
  Forall (fun ob => document.title (snd ob) <> document.title b) l ->
  Forall (fun ob => fst ob <> g) l ->
  document.create_document g b (rows document.dict l)
  = (rows document.dict (l ++ [(g, b)]),
     Returns {| document.detail := "Document created successfully.";
                document.data := Some (document_record (g, b)) |}).
Proof.
  intros Ht Hl.
  pose proof (find_one_key_absent document.dict "title" document.title
                ltac:(by intros [o []]) _ _ Ht) as Hfind.
  assert (Hb : document.dict b !! "_id" = None) by (by destruct b).
  unfold document.create_document, document_record.
  created Hfind Hb Hl Document_payload.
Qed.

Lemma create_project_fresh g b l :
  Forall (fun ob => project.name (snd ob) <> project.name b) l ->
  Forall (fun ob => fst ob <> g) l ->
  project.create_project g b (rows project.dict l)
  = (rows project.dict (l ++ [(g, b)]),
     Returns {| project.detail := "Project created successfully.";
                project.data := Some (project_record (g, b)) |}).
Proof.
  intros Ht Hl.
  pose proof (find_one_key_absent project.dict "name" project.name
                ltac:(by intros [o []]) _ _ Ht) as Hfind.
  assert (Hb : project.dict b !! "_id" = None) by (by destruct b).
  unfold project.create_project, project_record.
  created Hfind Hb Hl Project_payload.
Qed.

Lemma meeting_key_matches t dt ob :
  doc_matches {[ "title" := Eq (VStr t); "date" := Eq (VStr dt) ]} (row meeting.dict ob)
  <-> meeting.title (snd ob) = t /\ meeting.date (snd ob) = dt.
Proof.
  destruct ob as [o b]. destruct b. unfold doc_matches.
  rewrite map_Forall_insert by reflexivity. rewrite map_Forall_singleton.
  change ((String.eqb t title = true /\ String.eqb dt date = true)
          <-> title = t /\ date = dt).
  rewrite !String.eqb_eq. split; intros [-> ->]; auto.
Qed.

Lemma create_meeting_fresh g b l :
  Forall (fun ob => ~ (meeting.title (snd ob) = meeting.title b
                       /\ meeting.date (snd ob) = meeting.date b)) l ->
  Forall (fun ob => fst ob <> g) l ->
  meeting.create_meeting g b (rows meeting.dict l)
  = (rows meeting.dict (l ++ [(g, b)]),
     Returns {| meeting.detail := "Meeting created successfully.";
                meeting.data := Some (meeting_record (g, b)) |}).
Proof.
  intros Ht Hl.
  assert (Hfind : find_one {[ "title" := Eq (VStr (meeting.title b));
                              "date" := Eq (VStr (meeting.date b)) ]}
                    (rows meeting.dict l) = (rows meeting.dict l, Returns None)).
  { rewrite find_one_equalities
      by apply equalities_insert, equalities_singleton.
    rewrite head_filter_None; [reflexivity|].
    unfold rows. apply Forall_fmap. eapply Forall_impl; [exact Ht|].
    intros ob Hob. simpl. by rewrite meeting_key_matches. }
  assert (Hb : meeting.dict b !! "_id" = None) by (by destruct b).
  unfold meeting.create_meeting, meeting_record.
  created Hfind Hb Hl Meeting_payload.
Qed.

Lemma create_expense_fresh g b l :
  Forall (fun ob => fst ob <> g) l ->
  expense.create_expense g b (rows expense.dict l)
  = (rows expense.dict (l ++ [(g, b)]),
     Returns {| expense.detail := "Expense created successfully.";
                expense.data := Some (expense_record (g, b)) |}).
Proof.
  intros Hl.
  assert (Hb : expense.dict b !! "_id" = None) by (by destruct b).
  unfold expense.create_expense, expense_record. steps.
  rewrite (insert_one_fresh _ _ _ _ Hb Hl). steps.
  rewrite lookup_insert_eq. steps.
  rewrite Expense_payload. reflexivity.
Qed.

Lemma create_chat_fresh g b l :
  Forall (fun ob => fst ob <> g) l ->
  chat.create_chat g b (rows chat.dict l)
  = (rows chat.dict (l ++ [(g, b)]),
     Returns {| chat.detail := "Chat created successfully.";
                chat.data := Some (chat_record (g, b)) |}).
Proof.
  intros Hl.
  assert (Hb : chat.dict b !! "_id" = None) by (by destruct b).
  unfold chat.create_chat, chat_record.
  steps. rewrite (insert_one_fresh _ _ _ _ Hb Hl). steps.
  rewrite lookup_insert_eq. steps.
  rewrite chat_with_keyword. steps.
  rewrite ChatResponse_payload. reflexivity.
Qed.

(** The Identifier a create returns is never empty. *)
Lemma hexlify_length n x acc : String.length (hexlify n x acc) = (n + String.length acc)%nat.
Proof.
  revert x acc. induction n as [|n IH]; intros x acc; [reflexivity|].
  simpl. rewrite IH. simpl. lia.
Qed.

Lemma ObjectId_str_nonempty o : ObjectId_str o <> "".
Proof.
  intros H. pose proof (hexlify_length 24 (binary o) "") as L.
  unfold ObjectId_str in H. rewrite H in L. discriminate.
Qed.

(** *** A key that is already taken *)

Ltac taken Hfind Htrue :=
  unfold bind; rewrite Hfind; cbv beta iota; rewrite Htrue; reflexivity.

Lemma create_document_duplicate g b c :
  Exists (fun d : document => d !! "title" = Some (VStr (document.title b))) c ->
  document.create_document g b c
  = (c, Raises (HTTPException 400 (Literal "Document with this title already exists"))).
Proof.
  intros H. destruct (find_one_key_present _ _ _ H) as (d & Hfind & Htrue).
  unfold document.create_document. taken Hfind Htrue.
Qed.

Lemma create_project_duplicate g b c :
  Exists (fun d : document => d !! "name" = Some (VStr (project.name b))) c ->
  project.create_project g b c
  = (c, Raises (HTTPException 400 (Literal "Project with this name already exists"))).
Proof.
  intros H. destruct (find_one_key_present _ _ _ H) as (d & Hfind & Htrue).
  unfold project.create_project. taken Hfind Htrue.
Qed.

Lemma create_meeting_duplicate g b c :
  Exists (fun d : document => d !! "title" = Some (VStr (meeting.title b))
                              /\ d !! "date" = Some (VStr (meeting.date b))) c ->
  meeting.create_meeting g b c
  = (c, Raises (HTTPException 400
                  (Literal "Meeting with this title on the same date already exists"))).
Proof.
  intros H.
  set (q := {[ "title" := Eq (VStr (meeting.title b));
               "date" := Eq (VStr (meeting.date b)) ]} : query).
  assert (Hq : equalities q) by apply equalities_insert, equalities_singleton.
  destruct (head_filter_Some (doc_matches q) c) as (d & Hd & Hm).
  { eapply Exists_impl; [exact H|]. intros d [Ht Hdt].
    unfold q, doc_matches. rewrite map_Forall_insert by reflexivity.
    rewrite map_Forall_singleton. simpl. rewrite Ht, Hdt. simpl.
    by rewrite !String.eqb_refl. }
  assert (Hfind : find_one q c = (c, Returns (Some d)))
    by (by rewrite find_one_equalities, Hd).
  assert (Htrue : truthy (Some d) = true) by (by eapply matching_doc_truthy).
  unfold meeting.create_meeting. fold q. taken Hfind Htrue.
Qed.

(** In [create_employee] the same [HTTPException] is raised inside the
    [try], so it is caught and becomes a 500. *)
Lemma create_employee_duplicate g e c :
  Exists (fun d : document => d !! "name" = Some (VStr (employee.name e))) c ->
  answers_500 (employee.create_employee g e)
    (HTTPException 400 (Literal "Employee with this name already exists")) c.
Proof.
  intros H. destruct (find_one_key_present _ _ _ H) as (d & Hfind & Htrue).
  unfold answers_500, employee.create_employee, try_except. taken Hfind Htrue.
Qed.

(** ** Update: what is written and what is answered *)

Lemma rows_split {B} (dict : B -> document) pre ob post :
  rows dict (pre ++ ob :: post) = rows dict pre ++ row dict ob :: rows dict post.
Proof. unfold rows. by rewrite map_app. Qed.

Lemma absent_rows {B} (dict : B -> document) o l :
  Forall (fun ob => fst ob <> o) l -> absent o (rows dict l).
Proof.
  intros H. unfold absent, rows. apply Forall_fmap.
  eapply Forall_impl; [exact H|]. intros ob Hob. simpl. by rewrite has_id_row.
Qed.

(** Writing a dict over another with the same keys leaves the first. *)
Lemma union_same_keys (m1 m2 : document) : dom m2 ⊆ dom m1 -> m1 ∪ m2 = m1.
Proof.
  intros H. apply map_eq. intros k. rewrite lookup_union.
  destruct (m1 !! k) as [v|] eqn:E1.
  - by destruct (m2 !! k).
  - apply not_elem_of_dom in E1.
    assert (E2 : m2 !! k = None) by (apply not_elem_of_dom; set_solver).
    by rewrite E2.
Qed.

Lemma overwrite_row {B} (dict : B -> document) p ob :
  dict p !! "_id" = None -> dom (dict (snd ob)) ⊆ dom (dict p) ->
  dict p ∪ row dict ob = row dict (fst ob, p).
Proof.
  intros Hp Hdom. unfold row. simpl.
  rewrite <- insert_union_r by done. by rewrite union_same_keys.
Qed.

(** [$set] with the payload's dict turns a stored row into the row of the new
    payload under the same identifier: every field of the base schema is
    overwritten, [_id] stays. *)
Ltac same_keys dict :=
  apply (overwrite_row dict); [reflexivity|];
  unfold dict; rewrite !dom_insert_L, !dom_singleton_L; reflexivity.

Lemma employee_overwrite p ob :
  employee.dict p ∪ row employee.dict ob = row employee.dict (fst ob, p).
Proof. same_keys employee.dict. Qed.

Lemma chat_overwrite p ob :
  chat.dict p ∪ row chat.dict ob = row chat.dict (fst ob, p).
Proof. same_keys chat.dict. Qed.

Lemma document_overwrite p ob :
  document.dict p ∪ row document.dict ob = row document.dict (fst ob, p).
Proof. same_keys document.dict. Qed.

Lemma expense_overwrite p ob :
  expense.dict p ∪ row expense.dict ob = row expense.dict (fst ob, p).
Proof. same_keys expense.dict. Qed.

Lemma meeting_overwrite p ob :
  meeting.dict p ∪ row meeting.dict ob = row meeting.dict (fst ob, p).
Proof. same_keys meeting.dict. Qed.

Lemma project_overwrite p ob :
  project.dict p ∪ row project.dict ob = row project.dict (fst ob, p).
Proof. same_keys project.dict. Qed.

(** The payload's dict carries no [_id]: the identifier of the stored
    document is not touched by [$set]. *)
Lemma set_keeps_id (fields d : document) :
  fields !! "_id" = None -> (fields ∪ d) !! "_id" = d !! "_id".
Proof. intros H. by rewrite lookup_union_r. Qed.

Section Update_hit.
Variables (id : string) (o : ObjectId).
Hypothesis Hid : ObjectId_parse id = Some o.

Section Writes.
Variables (pre : collection) (d : document) (post : collection).
Hypothesis (Hpre : absent o pre) (Hd : has_id o d).

Lemma update_one_first fields :
  update_one {[ "_id" := Eq (VOid o) ]} fields (pre ++ d :: post)
  = (pre ++ (fields ∪ d) :: post, Returns 1%nat).
Proof.
  apply update_one_hit.
  - apply equalities_singleton.
  - by apply absent_by_id.
  - by apply by_id_matches.
Qed.

Ltac written payload :=
  steps; rewrite (ObjectId_ok _ _ _ Hid); steps;
  rewrite update_one_first; steps;
  rewrite payload; reflexivity.

Lemma update_chat_writes p :
  chat.update_chat id p (pre ++ d :: post)
  = (pre ++ (chat.dict p ∪ d) :: post,
     Returns {| chat.detail := "Chat updated successfully.";
                chat.data := Some {| chat.id := id; chat.fields := p |} |}).
Proof.
  unfold chat.update_chat.
  steps. rewrite (ObjectId_ok _ _ _ Hid). steps.
  rewrite update_one_first. steps.
  rewrite chat_with_keyword. steps.
  rewrite ChatResponse_payload. reflexivity.
Qed.

Lemma update_document_writes p :
  document.update_document id p (pre ++ d :: post)
  = (pre ++ (document.dict p ∪ d) :: post,
     Returns {| document.detail := "Document updated successfully.";
                document.data := Some {| document.base := p; document.id := id |} |}).
Proof.
  unfold document.update_document.
  written Document_payload.
Qed.

Lemma update_expense_writes p :
  expense.update_expense id p (pre ++ d :: post)
  = (pre ++ (expense.dict p ∪ d) :: post,
     Returns {| expense.detail := "Expense updated successfully.";
                expense.data := Some {| expense.base := p; expense.id := id |} |}).
Proof.
  unfold expense.update_expense.
  written Expense_payload.
Qed.

Lemma update_meeting_writes p :
  meeting.update_meeting id p (pre ++ d :: post)
  = (pre ++ (meeting.dict p ∪ d) :: post,
     Returns {| meeting.detail := "Meeting updated successfully.";
                meeting.data := Some {| meeting.base := p; meeting.id := id |} |}).
Proof.
  unfold meeting.update_meeting.
  written Meeting_payload.
Qed.

Lemma update_project_writes p :
  project.update_project id p (pre ++ d :: post)
  = (pre ++ (project.dict p ∪ d) :: post,
     Returns {| project.detail := "Project updated successfully.";
                project.data := Some {| project.base := p; project.id := id |} |}).
Proof.
  unfold project.update_project.
  written Project_payload.
Qed.

(** [update_employee] writes the same way, then fails to build its
    answer: the dict it passes to [Employee] has the key [_id], not [id]. *)
Lemma update_employee_writes p :
  employee.update_employee id p (pre ++ d :: post)
  = (pre ++ (employee.dict p ∪ d) :: post,
     Raises (HTTPException 500 (Str_of (ValidationError "Employee")))).
Proof.
  unfold employee.update_employee.
  steps. rewrite (ObjectId_ok _ _ _ Hid). steps.
  rewrite update_one_first. steps.
  rewrite Employee_needs_id; [reflexivity|].
  destruct p. vm_compute; reflexivity.
Qed.
End Writes.

(** On a collection of stored rows the document written is the row of the
    new payload. *)
Ltac on_rows writes overwrite Hpre :=
  let H := fresh in
  pose proof overwrite as H; cbn [fst] in H;
  rewrite !rows_split, <- H;
  apply writes; [by apply absent_rows | by apply has_id_row].

Lemma update_chat_hit p pre b post :
  Forall (fun ob => fst ob <> o) pre ->
  chat.update_chat id p (rows chat.dict (pre ++ (o, b) :: post))
  = (rows chat.dict (pre ++ (o, p) :: post),
     Returns {| chat.detail := "Chat updated successfully.";
                chat.data := Some {| chat.id := id; chat.fields := p |} |}).
Proof. intros Hpre. on_rows update_chat_writes (chat_overwrite p (o, b)) Hpre. Qed.

Lemma update_document_hit p pre b post :
  Forall (fun ob => fst ob <> o) pre ->
  document.update_document id p (rows document.dict (pre ++ (o, b) :: post))
  = (rows document.dict (pre ++ (o, p) :: post),
     Returns {| document.detail := "Document updated successfully.";
                document.data := Some {| document.base := p; document.id := id |} |}).
Proof. intros Hpre. on_rows update_document_writes (document_overwrite p (o, b)) Hpre. Qed.

Lemma update_expense_hit p pre b post :
  Forall (fun ob => fst ob <> o) pre ->
  expense.update_expense id p (rows expense.dict (pre ++ (o, b) :: post))
  = (rows expense.dict (pre ++ (o, p) :: post),
     Returns {| expense.detail := "Expense updated successfully.";
                expense.data := Some {| expense.base := p; expense.id := id |} |}).
Proof. intros Hpre. on_rows update_expense_writes (expense_overwrite p (o, b)) Hpre. Qed.

Lemma update_meeting_hit p pre b post :
  Forall (fun ob => fst ob <> o) pre ->
  meeting.update_meeting id p (rows meeting.dict (pre ++ (o, b) :: post))
  = (rows meeting.dict (pre ++ (o, p) :: post),
     Returns {| meeting.detail := "Meeting updated successfully.";
                meeting.data := Some {| meeting.base := p; meeting.id := id |} |}).
Proof. intros Hpre. on_rows update_meeting_writes (meeting_overwrite p (o, b)) Hpre. Qed.

Lemma update_project_hit p pre b post :
  Forall (fun ob => fst ob <> o) pre ->
  project.update_project id p (rows project.dict (pre ++ (o, b) :: post))
  = (rows project.dict (pre ++ (o, p) :: post),
     Returns {| project.detail := "Project updated successfully.";
                project.data := Some {| project.base := p; project.id := id |} |}).
Proof. intros Hpre. on_rows update_project_writes (project_overwrite p (o, b)) Hpre. Qed.

Lemma update_employee_hit p pre b post :
  Forall (fun ob => fst ob <> o) pre ->
  employee.update_employee id p (rows employee.dict (pre ++ (o, b) :: post))
  = (rows employee.dict (pre ++ (o, p) :: post),
     Raises (HTTPException 500 (Str_of (ValidationError "Employee")))).
Proof. intros Hpre. on_rows update_employee_writes (employee_overwrite p (o, b)) Hpre. Qed.
End Update_hit.

(** ** Delete: the first document under the identifier goes *)

Section Delete_hit.
Variables (id : string) (o : ObjectId).
Hypothesis Hid : ObjectId_parse id = Some o.
Variables (pre : collection) (d : document) (post : collection).
Hypothesis (Hpre : absent o pre) (Hd : has_id o d).

Lemma delete_one_first :
  delete_one {[ "_id" := Eq (VOid o) ]} (pre ++ d :: post)
  = (pre ++ post, Returns 1%nat).
Proof.
  apply delete_one_hit.
  - apply equalities_singleton.
  - by apply absent_by_id.
  - by apply by_id_matches.
Qed.

Ltac deleted :=
  steps; rewrite (ObjectId_ok _ _ _ Hid); steps;
  rewrite delete_one_first; reflexivity.

Lemma delete_removes_the_document :
  employee.delete_employee id (pre ++ d :: post)
  = (pre ++ post, Returns {[ "detail" := "Employee deleted successfully." ]})
  /\ chat.delete_chat id (pre ++ d :: post) = (pre ++ post, Returns tt)
  /\ document.delete_document id (pre ++ d :: post)
     = (pre ++ post, Returns {[ "detail" := "Document deleted successfully." ]})
  /\ expense.delete_expense id (pre ++ d :: post)
     = (pre ++ post, Returns {[ "detail" := "Expense deleted successfully." ]})
  /\ meeting.delete_meeting id (pre ++ d :: post)
     = (pre ++ post, Returns {[ "detail" := "Meeting deleted successfully." ]})
  /\ project.delete_project id (pre ++ d :: post)
     = (pre ++ post, Returns {[ "detail" := "Project deleted successfully." ]}).
Proof.
  repeat split.
  - unfold employee.delete_employee. deleted.
  - unfold chat.delete_chat. deleted.
  - unfold document.delete_document. deleted.
  - unfold expense.delete_expense. deleted.
  - unfold meeting.delete_meeting. deleted.
  - unfold project.delete_project. deleted.
Qed.
End Delete_hit.

Lemma delete_removes_the_document_witness :
  let pre := rows chat.dict [(oid 1, hello)] in
  let d := row chat.dict (oid 2, hello) in
  ObjectId_parse "000000000000000000000002" = Some (oid 2)
  /\ absent (oid 2) pre
  /\ has_id (oid 2) d
  /\ chat.delete_chat "000000000000000000000002" (pre ++ d :: []) = (pre ++ [], Returns tt).
Proof.
  intros pre d.
  assert (Hid : ObjectId_parse "000000000000000000000002" = Some (oid 2)) by reflexivity.
  assert (Hpre : absent (oid 2) pre) by (repeat constructor; vm_compute; congruence).
  assert (Hd : has_id (oid 2) d) by reflexivity.
  split; [exact Hid|]. split; [exact Hpre|]. split; [exact Hd|].
  destruct (delete_removes_the_document _ _ Hid pre d [] Hpre Hd) as (_ & H & _).
  exact H.
Defined.

(** ** The employee router never builds a Record *)

Lemma bind_Returns_inv {A B} (m : M A) (k : A -> M B) c c' b :
  bind m k c = (c', Returns b) ->
  exists c1 a, m c = (c1, Returns a) /\ k a c1 = (c', Returns b).
Proof.
  unfold bind. destruct (m c) as [c1 [a|e|]]; intros H; try discriminate. eauto.
Qed.

Lemma try_except_Returns_inv {A} (m : M A) c c' a :
  try_except m reraise_500 c = (c', Returns a) -> m c = (c', Returns a).
Proof.
  unfold try_except. destruct (m c) as [c1 [x|e|]]; intros H; try discriminate; done.
Qed.

Lemma Employee_never_from_dict e v c c' r :
  employee.Employee_ (<["_id" := v]> (employee.dict e)) c <> (c', Returns r).
Proof.
  rewrite Employee_needs_id; [discriminate|].
  destruct e. vm_compute; reflexivity.
Qed.

(** Whatever the request and the collection, [create_employee] and
    [update_employee] do not return. *)
Lemma create_employee_never_returns g e c c' r :
  employee.create_employee g e c <> (c', Returns r).
Proof.
  intros H. apply try_except_Returns_inv in H.
  apply bind_Returns_inv in H as (c1 & ex & _ & H).
  apply bind_Returns_inv in H as (c2 & [] & _ & H).
  apply bind_Returns_inv in H as (c3 & i & _ & H).
  apply bind_Returns_inv in H as (c4 & x & H & _).
  by apply Employee_never_from_dict in H.
Qed.

Lemma update_employee_never_returns id e c c' r :
  employee.update_employee id e c <> (c', Returns r).
Proof.
  intros H. apply try_except_Returns_inv in H.
  apply bind_Returns_inv in H as (c1 & o & _ & H).
  apply bind_Returns_inv in H as (c2 & n & _ & H).
  apply bind_Returns_inv in H as (c3 & [] & _ & H).
  apply bind_Returns_inv in H as (c4 & x & H & _).
  by apply Employee_never_from_dict in H.
Qed.

(** A create with a new name inserts the row and then answers 500. *)
Lemma create_employee_fresh g e l :
  Forall (fun ob => employee.name (snd ob) <> employee.name e) l ->
  Forall (fun ob => fst ob <> g) l ->
  employee.create_employee g e (rows employee.dict l)
  = (rows employee.dict (l ++ [(g, e)]),
     Raises (HTTPException 500 (Str_of (ValidationError "Employee")))).
Proof.
  intros Ht Hl.
  pose proof (find_one_key_absent employee.dict "name" employee.name
                ltac:(by intros [o []]) _ _ Ht) as Hfind.
  assert (Hb : employee.dict e !! "_id" = None) by (by destruct e).
  unfold employee.create_employee.
  steps. rewrite Hfind. steps.
  rewrite (insert_one_fresh _ _ _ _ Hb Hl). steps.
  rewrite Employee_needs_id; [reflexivity|].
  destruct e. vm_compute; reflexivity.
Qed.

(** Listing or searching answers 500 as soon as one employee is selected. *)
Lemma employee_listing_fails ob l c :
  (employees <- stringify_ids (rows employee.dict (ob :: l)) ;;
   for_each employee.Employee_ employees) c
  = (c, Raises (ValidationError "Employee")).
Proof.
  rewrite (bind_Returns _ _ _ _ _ (stringify_rows employee.dict (ob :: l) c)).
  simpl. erewrite bind_Raises; [reflexivity|].
  apply Employee_needs_id. destruct ob as [o []]. vm_compute; reflexivity.
Qed.

Lemma get_employees_fails ob l :
  answers_500 employee.get_employees (ValidationError "Employee")
    (rows employee.dict (ob :: l)).
Proof.
  unfold answers_500, employee.get_employees.
  erewrite try_except_Raises; [reflexivity|].
  rewrite (bind_Returns _ _ _ _ _ (find_all _)).
  apply employee_listing_fails.
Qed.

Lemma get_employees_empty : employee.get_employees [] = ([], Returns []).
Proof. reflexivity. Qed.

(** ** Duplicate keys at create (C2) *)

(** The uniqueness check of the document, meeting and project routers is
    outside any [try]: a key that is taken is answered with status 400 and
    nothing is inserted. *)
Lemma duplicate_key_answers_400 g c :
  (forall b,
      Exists (fun d : document => d !! "title" = Some (VStr (document.title b))) c ->
      fst (document.create_document g b c) = c
      /\ http_status 201 (snd (document.create_document g b c)) = Some 400%nat)
  /\ (forall b,
         Exists (fun d : document => d !! "title" = Some (VStr (meeting.title b))
                                     /\ d !! "date" = Some (VStr (meeting.date b))) c ->
         fst (meeting.create_meeting g b c) = c
         /\ http_status 201 (snd (meeting.create_meeting g b c)) = Some 400%nat)
  /\ (forall b,
         Exists (fun d : document => d !! "name" = Some (VStr (project.name b))) c ->
         fst (project.create_project g b c) = c
         /\ http_status 201 (snd (project.create_project g b c)) = Some 400%nat).
Proof.
  repeat split; intros.
  all: first [ rewrite create_document_duplicate by done
             | rewrite create_meeting_duplicate by done
             | rewrite create_project_duplicate by done ]; reflexivity.
Qed.

(** C2, at a concrete request.  An employee named "Asha" is stored; a create
    with the same name inserts nothing, but the [HTTPException] with status
    400 that [create_employee] raises is caught by the handler's own
    [except Exception] and raised again with status 500. *)
Theorem duplicate_name_answers_500 :
  let employees := rows employee.dict [(oid 1, asha)] in
  employee.create_employee (oid 2) asha employees
    = (employees,
       Raises (HTTPException 500
                 (Str_of (HTTPException 400
                            (Literal "Employee with this name already exists")))))
  /\ http_status 201 (snd (employee.create_employee (oid 2) asha employees))
     = Some 500%nat.
Proof.
  intros employees.
  assert (H : answers_500 (employee.create_employee (oid 2) asha)
                (HTTPException 400 (Literal "Employee with this name already exists"))
                employees).
  { apply create_employee_duplicate. apply Exists_cons_hd. reflexivity. }
  unfold answers_500 in H. rewrite H. auto.
Qed.

(** ** Records and their identifiers (C3) *)

(** In the chat, document, expense, meeting and project routers a create
    that passes the uniqueness check returns the payload together with the
    generated identifier, which is 24 characters long. *)
Lemma create_returns_the_record g :
  ObjectId_str g <> ""
  /\ (forall l b,
         Forall (fun ob => fst ob <> g) l ->
         snd (chat.create_chat g b (rows chat.dict l))
         = Returns {| chat.detail := "Chat created successfully.";
                      chat.data := Some {| chat.id := ObjectId_str g;
                                           chat.fields := b |} |})
  /\ (forall l b,
         Forall (fun ob => fst ob <> g) l ->
         Forall (fun ob => document.title (snd ob) <> document.title b) l ->
         snd (document.create_document g b (rows document.dict l))
         = Returns {| document.detail := "Document created successfully.";
                      document.data := Some {| document.base := b;
                                               document.id := ObjectId_str g |} |})
  /\ (forall l b,
         Forall (fun ob => fst ob <> g) l ->
         snd (expense.create_expense g b (rows expense.dict l))
         = Returns {| expense.detail := "Expense created successfully.";
                      expense.data := Some {| expense.base := b;
                                              expense.id := ObjectId_str g |} |})
  /\ (forall l b,
         Forall (fun ob => fst ob <> g) l ->
         Forall (fun ob => ~ (meeting.title (snd ob) = meeting.title b
                              /\ meeting.date (snd ob) = meeting.date b)) l ->
         snd (meeting.create_meeting g b (rows meeting.dict l))
         = Returns {| meeting.detail := "Meeting created successfully.";
                      meeting.data := Some {| meeting.base := b;
                                              meeting.id := ObjectId_str g |} |})
  /\ (forall l b,
         Forall (fun ob => fst ob <> g) l ->
         Forall (fun ob => project.name (snd ob) <> project.name b) l ->
         snd (project.create_project g b (rows project.dict l))
         = Returns {| project.detail := "Project created successfully.";
                      project.data := Some {| project.base := b;
                                              project.id := ObjectId_str g |} |}).
Proof.
  split; [apply ObjectId_str_nonempty|].
  repeat split; intros.
  - by rewrite create_chat_fresh.
  - by rewrite create_document_fresh.
  - by rewrite create_expense_fresh.
  - by rewrite create_meeting_fresh.
  - by rewrite create_project_fresh.
Qed.

(** C3, at a concrete request.  Creating the employee "Asha" in an empty
    collection inserts the document, and then no Record comes back:
    [create_employee] stores the identifier under the key [_id] and calls
    [Employee] without the [id] the model requires, the validation error is
    caught, and the caller gets status 500.  Listing the collection
    afterwards fails the same way. *)
Theorem employee_record_is_never_built :
  let employees := rows employee.dict [(oid 1, asha)] in
  employee.create_employee (oid 1) asha []
    = (employees, Raises (HTTPException 500 (Str_of (ValidationError "Employee"))))
  /\ http_status 201 (snd (employee.create_employee (oid 1) asha [])) = Some 500%nat
  /\ employee.get_employees employees
     = (employees, Raises (HTTPException 500 (Str_of (ValidationError "Employee"))))
  /\ http_status 200 (snd (employee.get_employees employees)) = Some 500%nat.
Proof.
  intros employees.
  pose proof (create_employee_fresh (oid 1) asha [] ltac:(constructor) ltac:(constructor))
    as H1.
  pose proof (get_employees_fails (oid 1, asha) []) as H2.
  unfold answers_500 in H2. change (rows employee.dict []) with (@nil document) in H1.
  fold employees in H2. change (rows employee.dict ([] ++ [(oid 1, asha)])) with employees in H1.
  rewrite H1, H2. auto.
Qed.

(** ** Update replaces the payload (C7) *)

(** In the chat, document, expense, meeting and project routers: let [id]
    parse to [o], and let [d] be the first stored document that carries [o].
    Update writes the payload's dict over [d] and touches nothing else: the
    collection afterwards is the one before with [dict p ∪ d] in the place
    of [d], where [fields ∪ d] is [d] with the entries of [fields] written
    over it.  The handler returns the payload together with the very [id] it
    was given.  In the document written the identifier is the one [d] had,
    and when [d] is the row of an earlier payload, the document written is
    the row of the new payload under the same identifier: every field of the
    base schema has been replaced. *)
Lemma update_replaces_the_payload
    (id : string) (o : ObjectId) (pre : collection) (d : document) (post : collection) :
  ObjectId_parse id = Some o -> absent o pre -> has_id o d ->
  (
   (forall p,
       chat.update_chat id p (pre ++ d :: post)
       = (pre ++ (chat.dict p ∪ d) :: post,
          Returns {| chat.detail := "Chat updated successfully.";
                      chat.data := Some {| chat.id := id; chat.fields := p |} |}))
   /\ (forall p,
       document.update_document id p (pre ++ d :: post)
       = (pre ++ (document.dict p ∪ d) :: post,
          Returns {| document.detail := "Document updated successfully.";
                      document.data := Some {| document.base := p; document.id := id |} |}))
   /\ (forall p,
       expense.update_expense id p (pre ++ d :: post)
       = (pre ++ (expense.dict p ∪ d) :: post,
          Returns {| expense.detail := "Expense updated successfully.";
                      expense.data := Some {| expense.base := p; expense.id := id |} |}))
   /\ (forall p,
       meeting.update_meeting id p (pre ++ d :: post)
       = (pre ++ (meeting.dict p ∪ d) :: post,
          Returns {| meeting.detail := "Meeting updated successfully.";
                      meeting.data := Some {| meeting.base := p; meeting.id := id |} |}))
   /\ (forall p,
       project.update_project id p (pre ++ d :: post)
       = (pre ++ (project.dict p ∪ d) :: post,
          Returns {| project.detail := "Project updated successfully.";
                      project.data := Some {| project.base := p; project.id := id |} |})))
  /\ ((forall p, (chat.dict p ∪ d) !! "_id" = d !! "_id")
      /\ (forall p, (document.dict p ∪ d) !! "_id" = d !! "_id")
      /\ (forall p, (expense.dict p ∪ d) !! "_id" = d !! "_id")
      /\ (forall p, (meeting.dict p ∪ d) !! "_id" = d !! "_id")
      /\ (forall p, (project.dict p ∪ d) !! "_id" = d !! "_id"))
  /\ ((forall p ob, chat.dict p ∪ row chat.dict ob = row chat.dict (fst ob, p))
      /\ (forall p ob, document.dict p ∪ row document.dict ob = row document.dict (fst ob, p))
      /\ (forall p ob, expense.dict p ∪ row expense.dict ob = row expense.dict (fst ob, p))
      /\ (forall p ob, meeting.dict p ∪ row meeting.dict ob = row meeting.dict (fst ob, p))
      /\ (forall p ob, project.dict p ∪ row project.dict ob = row project.dict (fst ob, p))).
Proof.
  intros Hid Hpre Hd. split; [|split].
  - repeat apply conj; intros.
    + by apply (update_chat_writes id o).
    + by apply (update_document_writes id o).
    + by apply (update_expense_writes id o).
    + by apply (update_meeting_writes id o).
    + by apply (update_project_writes id o).
  - repeat apply conj; intros p; apply set_keeps_id; by destruct p.
  - repeat apply conj; intros;
      auto using chat_overwrite, document_overwrite,
        expense_overwrite, meeting_overwrite, project_overwrite.
Qed.

Lemma update_replaces_the_payload_witness :
  let pre := rows document.dict [(oid 1, report)] in
  let d := row document.dict (oid 2, report_lower) in
  ObjectId_parse "000000000000000000000002" = Some (oid 2)
  /\ absent (oid 2) pre
  /\ has_id (oid 2) d
  /\ document.update_document "000000000000000000000002" report (pre ++ d :: [])
     = (pre ++ (document.dict report ∪ d) :: [],
        Returns {| document.detail := "Document updated successfully.";
                   document.data :=
                     Some {| document.base := report;
                             document.id := "000000000000000000000002" |} |})
  /\ document.dict report ∪ d = row document.dict (oid 2, report).
Proof.
  intros pre d.
  assert (Hid : ObjectId_parse "000000000000000000000002" = Some (oid 2)) by reflexivity.
  assert (Hpre : absent (oid 2) pre) by (repeat constructor; vm_compute; congruence).
  assert (Hd : has_id (oid 2) d) by reflexivity.
  split; [exact Hid|]. split; [exact Hpre|]. split; [exact Hd|].
  destruct (update_replaces_the_payload _ _ pre d [] Hid Hpre Hd)
    as ((_ & H & _) & _ & (_ & Hrow & _)).
  split; [exact (H report) | exact (Hrow report (oid 2, report_lower))].
Defined.

(** C7, at a concrete request.  Employees "Asha" and "Bo" are stored.  An
    update of the first one is written to the collection as the claim says:
    the stored document now holds every field of the payload under the
    identifier it had, and the other document is as before.  But the update
    does not succeed for the caller and no Record is returned:
    [update_employee] stores the identifier under the key [_id] and calls
    [Employee] without the [id] the model requires, the validation error is
    caught, and the answer is status 500. *)
Theorem employee_update_answers_500 :
  let promoted := {| employee.name := "Asha B."; employee.position := "Manager";
                     employee.salary := 120000 |} in
  let id := "000000000000000000000001" in
  let before := rows employee.dict [(oid 1, asha); (oid 2, bo)] in
  let written : document :=
    {[ "_id" := VOid (oid 1); "name" := VStr "Asha B.";
       "position" := VStr "Manager"; "salary" := VNum 120000 ]} in
  let untouched : document :=
    {[ "_id" := VOid (oid 2); "name" := VStr "Bo";
       "position" := VStr "Analyst"; "salary" := VNum 70000 ]} in
  employee.update_employee id promoted before
    = ([written; untouched],
       Raises (HTTPException 500 (Str_of (ValidationError "Employee"))))
  /\ http_status 200 (snd (employee.update_employee id promoted before)) = Some 500%nat
  /\ (forall c' r, employee.update_employee id promoted before <> (c', Returns r)).
Proof.
  intros promoted id before written untouched.
  pose proof (update_employee_hit id (oid 1) eq_refl promoted [] asha [(oid 2, bo)]
                ltac:(constructor)) as H.
  change (rows employee.dict ([] ++ (oid 1, asha) :: [(oid 2, bo)])) with before in H.
  change (rows employee.dict ([] ++ (oid 1, promoted) :: [(oid 2, bo)]))
    with [written; untouched] in H.
  rewrite H. split; [reflexivity|]. split; [reflexivity|]. discriminate.
Qed.

(** ** No uniqueness check on update (C8) *)

(** In the document, meeting and project routers an update that gives a
    record the key of another one succeeds, and both rows then carry that
    key. *)
Lemma update_does_not_check_the_key id o :
  ObjectId_parse id = Some o ->
  (forall p b pre post other,
      Forall (fun ob => fst ob <> o) pre -> other ∈ pre ++ post ->
      document.title (snd other) = document.title p ->
      exists l', document.update_document id p (rows document.dict (pre ++ (o, b) :: post))
                 = (rows document.dict l',
                    Returns {| document.detail := "Document updated successfully.";
                               document.data := Some {| document.base := p;
                                                        document.id := id |} |})
                 /\ (o, p) ∈ l' /\ other ∈ l')
  /\ (forall p b pre post other,
         Forall (fun ob => fst ob <> o) pre -> other ∈ pre ++ post ->
         meeting.title (snd other) = meeting.title p ->
         meeting.date (snd other) = meeting.date p ->
         exists l', meeting.update_meeting id p (rows meeting.dict (pre ++ (o, b) :: post))
                    = (rows meeting.dict l',
                       Returns {| meeting.detail := "Meeting updated successfully.";
                                  meeting.data := Some {| meeting.base := p;
                                                          meeting.id := id |} |})
                    /\ (o, p) ∈ l' /\ other ∈ l')
  /\ (forall p b pre post other,
         Forall (fun ob => fst ob <> o) pre -> other ∈ pre ++ post ->
         project.name (snd other) = project.name p ->
         exists l', project.update_project id p (rows project.dict (pre ++ (o, b) :: post))
                    = (rows project.dict l',
                       Returns {| project.detail := "Project updated successfully.";
                                  project.data := Some {| project.base := p;
                                                          project.id := id |} |})
                    /\ (o, p) ∈ l' /\ other ∈ l').
Proof.
  intros Hid. repeat split; intros p b pre post other Hpre Hother; intros;
    exists (pre ++ (o, p) :: post).
  all: split; [first [ by apply update_document_hit | by apply update_meeting_hit
                     | by apply update_project_hit ] |].
  all: apply elem_of_app in Hother; rewrite !elem_of_app, !elem_of_cons; tauto.
Qed.

Lemma update_does_not_check_the_key_witness :
  ObjectId_parse "000000000000000000000002" = Some (oid 2)
  /\ exists l',
       document.update_document "000000000000000000000002" report
         (rows document.dict ([(oid 1, report)] ++ (oid 2, report_lower) :: []))
       = (rows document.dict l',
          Returns {| document.detail := "Document updated successfully.";
                     document.data :=
                       Some {| document.base := report;
                               document.id := "000000000000000000000002" |} |})
       /\ (oid 2, report) ∈ l' /\ (oid 1, report) ∈ l'.
Proof.
  assert (Hid : ObjectId_parse "000000000000000000000002" = Some (oid 2)) by reflexivity.
  split; [exact Hid|].
  destruct (update_does_not_check_the_key _ _ Hid) as (H & _).
  apply (H report report_lower [(oid 1, report)] [] (oid 1, report)).
  - repeat constructor. discriminate.
  - rewrite app_nil_r. apply list_elem_of_singleton. reflexivity.
  - reflexivity.
Defined.

(** C8, at a concrete request.  Employees "Asha" and "Bo" are stored.
    Renaming the first to "Bo" is written to the collection without any
    check, so that two employees are named "Bo", as the claim says; but the
    update does not succeed for the caller: [update_employee] then calls
    [Employee] without the [id] the model requires and answers 500. *)
Theorem duplicate_name_update_answers_500 :
  let renamed := {| employee.name := "Bo"; employee.position := "Engineer";
                    employee.salary := 95000 |} in
  let id := "000000000000000000000001" in
  let before := rows employee.dict [(oid 1, asha); (oid 2, bo)] in
  let after := rows employee.dict [(oid 1, renamed); (oid 2, bo)] in
  employee.update_employee id renamed before
    = (after, Raises (HTTPException 500 (Str_of (ValidationError "Employee"))))
  /\ http_status 200 (snd (employee.update_employee id renamed before)) = Some 500%nat.
Proof.
  intros renamed id before after.
  pose proof (update_employee_hit id (oid 1) eq_refl renamed [] asha [(oid 2, bo)]
                ltac:(constructor)) as H.
  change (rows employee.dict ([] ++ (oid 1, asha) :: [(oid 2, bo)])) with before in H.
  change (rows employee.dict ([] ++ (oid 1, renamed) :: [(oid 2, bo)])) with after in H.
  rewrite H. auto.
Qed.

(** ** Falsy filter values (C9) *)

Lemma zero_is_falsy (z : Q) : (z == 0)%Q -> truthy z = false.
Proof.
  intros H. unfold truthy, truthy_float.
  apply Qeq_bool_iff in H. by rewrite H.
Qed.

(** The part of C9 that holds in every router: an empty string, and the
    salary zero, are dropped exactly as a parameter that was not sent. *)
Lemma falsy_filters_are_absent :
  (forall id name position salary,
      employee.search_employees (Some "") name position salary
      = employee.search_employees None name position salary
      /\ employee.search_employees id (Some "") position salary
         = employee.search_employees id None position salary
      /\ employee.search_employees id name (Some "") salary
         = employee.search_employees id name None salary
      /\ (forall z, (z == 0)%Q ->
                    employee.search_employees id name position (Some z)
                    = employee.search_employees id name position None))
  /\ (forall message sender timestamp,
         chat.search_chats (Some "") sender timestamp
         = chat.search_chats None sender timestamp
         /\ chat.search_chats message (Some "") timestamp
            = chat.search_chats message None timestamp
         /\ chat.search_chats message sender (Some "")
            = chat.search_chats message sender None)
  /\ (forall id title uploaded_by,
         document.search_documents (Some "") title uploaded_by
         = document.search_documents None title uploaded_by
         /\ document.search_documents id (Some "") uploaded_by
            = document.search_documents id None uploaded_by
         /\ document.search_documents id title (Some "")
            = document.search_documents id title None)
  /\ (forall id title category incurred_by,
         expense.search_expenses (Some "") title category incurred_by
         = expense.search_expenses None title category incurred_by
         /\ expense.search_expenses id (Some "") category incurred_by
            = expense.search_expenses id None category incurred_by
         /\ expense.search_expenses id title (Some "") incurred_by
            = expense.search_expenses id title None incurred_by
         /\ expense.search_expenses id title category (Some "")
            = expense.search_expenses id title category None)
  /\ (forall id title organizer date,
         meeting.search_meetings (Some "") title organizer date
         = meeting.search_meetings None title organizer date
         /\ meeting.search_meetings id (Some "") organizer date
            = meeting.search_meetings id None organizer date
         /\ meeting.search_meetings id title (Some "") date
            = meeting.search_meetings id title None date
         /\ meeting.search_meetings id title organizer (Some "")
            = meeting.search_meetings id title organizer None)
  /\ (forall id name status,
         project.search_projects (Some "") name status
         = project.search_projects None name status
         /\ project.search_projects id (Some "") status
            = project.search_projects id None status
         /\ project.search_projects id name (Some "")
            = project.search_projects id name None).
Proof.
  repeat split; try reflexivity.
  intros z Hz. unfold employee.search_employees, employee.search_query, if_truthy.
  by rewrite (zero_is_falsy z Hz).
Qed.

(** A search without any filter is the listing. *)
Lemma search_without_filters_is_listing c :
  employee.search_employees None None None None c = employee.get_employees c
  /\ chat.search_chats None None None c = chat.get_chats c
  /\ document.search_documents None None None c = document.get_documents c
  /\ expense.search_expenses None None None None c = expense.get_expenses c
  /\ meeting.search_meetings None None None None c = meeting.get_meetings c
  /\ project.search_projects None None None c = project.get_projects c.
Proof. repeat split; reflexivity. Qed.

(** Listing a collection of stored rows returns the Record of every row. *)
Lemma listing_returns_every_record :
  (forall l, chat.get_chats (rows chat.dict l)
             = (rows chat.dict l, Returns (map chat_record l)))
  /\ (forall l, document.get_documents (rows document.dict l)
                = (rows document.dict l, Returns (map document_record l)))
  /\ (forall l, expense.get_expenses (rows expense.dict l)
                = (rows expense.dict l, Returns (map expense_record l)))
  /\ (forall l, meeting.get_meetings (rows meeting.dict l)
                = (rows meeting.dict l, Returns (map meeting_record l)))
  /\ (forall l, project.get_projects (rows project.dict l)
                = (rows project.dict l, Returns (map project_record l))).
Proof.
  repeat split; intros l.
  - unfold chat.get_chats. apply try_except_Returns.
    rewrite (bind_Returns _ _ _ _ _ (find_all _)). apply chat_listing_rows.
  - unfold document.get_documents. apply try_except_Returns.
    rewrite (bind_Returns _ _ _ _ _ (find_all _)).
    apply (listing_rows document.dict _ document_record Document_row).
  - unfold expense.get_expenses. apply try_except_Returns.
    rewrite (bind_Returns _ _ _ _ _ (find_all _)).
    apply (listing_rows expense.dict _ expense_record Expense_row).
  - unfold meeting.get_meetings. apply try_except_Returns.
    rewrite (bind_Returns _ _ _ _ _ (find_all _)).
    apply (listing_rows meeting.dict _ meeting_record Meeting_row).
  - unfold project.get_projects. apply try_except_Returns.
    rewrite (bind_Returns _ _ _ _ _ (find_all _)).
    apply (listing_rows project.dict _ project_record Project_row).
Qed.

(** With the sender filter empty, every chat comes back. *)
Lemma empty_sender_returns_every_chat l :
  chat.search_chats None (Some "") None (rows chat.dict l)
  = (rows chat.dict l, Returns (map chat_record l)).
Proof.
  change (chat.search_chats None (Some "") None) with chat.get_chats.
  unfold chat.get_chats. apply try_except_Returns.
  rewrite (bind_Returns _ _ _ _ _ (find_all _)). apply chat_listing_rows.
Qed.

(** C9, at a concrete request.  One employee is stored, with salary 95000.
    A search with [salary=0] builds the empty query, as the claim says: the
    zero is dropped.  The store call therefore selects the stored employee;
    but the caller does not get every employee, the caller gets status 500,
    because [search_employees] calls [Employee] without the [id] the model
    requires. *)
Theorem salary_zero_search_answers_500 :
  let employees := rows employee.dict [(oid 1, asha)] in
  employee.search_query None None None (Some 0%Q) employees = (employees, Returns ∅)
  /\ employee.search_employees None None None (Some 0%Q) employees
     = (employees, Raises (HTTPException 500 (Str_of (ValidationError "Employee"))))
  /\ http_status 200 (snd (employee.search_employees None None None (Some 0%Q) employees))
     = Some 500%nat.
Proof.
  intros employees.
  assert (H : employee.search_employees None None None (Some 0%Q) employees
              = (employees, Raises (HTTPException 500 (Str_of (ValidationError "Employee"))))).
  { change (employee.search_employees None None None (Some 0%Q)) with employee.get_employees.
    apply (get_employees_fails (oid 1, asha) []). }
  rewrite H. repeat split; reflexivity.
Qed.

(** ** Keys that differ in letter case only (C10) *)






(** A search for either of two plain texts that differ in letter case only
    returns the rows of both. *)
Section Case_variants.
Context {B R : Type}.
Variables (dict : B -> document) (record : ObjectId * B -> R) (key : B -> string)
          (search : string -> M (list R)).
Hypothesis search_pattern : by_pattern search dict record key.

End Case_variants.




(** * From a create to the later requests *)

(** ** The text of an identifier reads back as the identifier *)

Lemma hex_value_digit v : (v < 16)%N -> hex_value (hex_digit v) = Some v.
Proof.
  intros H.
  assert (Hc : forall n, (n < 16)%nat ->
                         hex_value (hex_digit (N.of_nat n)) = Some (N.of_nat n)).
  { intros n Hn. do 16 (destruct n as [|n]; [vm_compute; reflexivity|]). lia. }
  rewrite <- (N2Nat.id v). apply Hc. lia.
Qed.

Lemma fromhex_hexlify k : forall n acc s,
  fromhex acc (chars (hexlify k n s))
  = fromhex (acc * 16 ^ N.of_nat k + n mod 16 ^ N.of_nat k)%N (chars s).
Proof.
  induction k as [|k IH]; intros n acc s.
  - simpl. f_equal. rewrite N.mod_1_r. lia.
  - cbn [hexlify]. rewrite IH. unfold chars at 1. cbn [list_ascii_of_string fromhex].
    rewrite hex_value_digit by (apply N.mod_lt; lia).
    fold (chars s). f_equal.
    rewrite Nat2N.inj_succ, N.pow_succ_r'.
    rewrite (N.Div0.mod_mul_r n 16). lia.
Qed.

(** [ObjectId(str(o)) == o] for the twelve bytes of an ObjectId. *)
Lemma ObjectId_roundtrip o :
  (binary o < 2 ^ 96)%N -> ObjectId_parse (ObjectId_str o) = Some o.
Proof.
  intros H. unfold ObjectId_parse, ObjectId_str.
  rewrite hexlify_length. cbn [String.length Nat.add Nat.eqb].
  rewrite fromhex_hexlify. cbn [chars list_ascii_of_string fromhex].
  destruct o as [n]. cbn [binary] in *. simpl fmap.
  rewrite N.mul_0_l, N.add_0_l.
  change (16 ^ N.of_nat 24)%N with (2 ^ 96)%N.
  rewrite N.mod_small by exact H. reflexivity.
Qed.

(** ** Delete, handler by handler *)

Section Delete_first.
Variables (id : string) (o : ObjectId).
Hypothesis Hid : ObjectId_parse id = Some o.
Variables (pre : collection) (d : document) (post : collection).
Hypothesis (Hpre : absent o pre) (Hd : has_id o d).

Lemma delete_one_by_id :
  delete_one {[ "_id" := Eq (VOid o) ]} (pre ++ d :: post)
  = (pre ++ post, Returns 1%nat).
Proof.
  apply delete_one_hit.
  - apply equalities_singleton.
  - by apply absent_by_id.
  - by apply by_id_matches.
Qed.

Ltac gone :=
  steps; rewrite (ObjectId_ok _ _ _ Hid); steps;
  rewrite delete_one_by_id; reflexivity.

Lemma delete_employee_first :
  employee.delete_employee id (pre ++ d :: post)
  = (pre ++ post, Returns {[ "detail" := "Employee deleted successfully." ]}).
Proof. unfold employee.delete_employee. gone. Qed.

Lemma delete_chat_first :
  chat.delete_chat id (pre ++ d :: post) = (pre ++ post, Returns tt).
Proof. unfold chat.delete_chat. gone. Qed.

Lemma delete_document_first :
  document.delete_document id (pre ++ d :: post)
  = (pre ++ post, Returns {[ "detail" := "Document deleted successfully." ]}).
Proof. unfold document.delete_document. gone. Qed.

Lemma delete_expense_first :
  expense.delete_expense id (pre ++ d :: post)
  = (pre ++ post, Returns {[ "detail" := "Expense deleted successfully." ]}).
Proof. unfold expense.delete_expense. gone. Qed.

Lemma delete_meeting_first :
  meeting.delete_meeting id (pre ++ d :: post)
  = (pre ++ post, Returns {[ "detail" := "Meeting deleted successfully." ]}).
Proof. unfold meeting.delete_meeting. gone. Qed.

Lemma delete_project_first :
  project.delete_project id (pre ++ d :: post)
  = (pre ++ post, Returns {[ "detail" := "Project deleted successfully." ]}).
Proof. unfold project.delete_project. gone. Qed.
End Delete_first.

(** The row a create appended is the first, and only, one under its
    identifier. *)
Lemma rows_snoc {B} (dict : B -> document) l ob :
  rows dict (l ++ [ob]) = rows dict l ++ row dict ob :: [].
Proof. apply rows_split. Qed.

Section Undo.
Variable g : ObjectId.
Hypothesis Hg : (binary g < 2 ^ 96)%N.

Let Hid : ObjectId_parse (ObjectId_str g) = Some g := ObjectId_roundtrip g Hg.

Lemma delete_last {B A} (dict : B -> document) (h : string -> M A) a l b :
  (forall pre d post, absent g pre -> has_id g d ->
                      h (ObjectId_str g) (pre ++ d :: post) = (pre ++ post, Returns a)) ->
  Forall (fun ob => fst ob <> g) l ->
  h (ObjectId_str g) (rows dict (l ++ [(g, b)])) = (rows dict l, Returns a).
Proof.
  intros Hh Hl. rewrite rows_snoc, Hh.
  - by rewrite app_nil_r.
  - by apply absent_rows.
  - by apply has_id_row.
Qed.

Lemma delete_created_chat l b :
  Forall (fun ob => fst ob <> g) l ->
  chat.delete_chat (ObjectId_str g) (rows chat.dict (l ++ [(g, b)]))
  = (rows chat.dict l, Returns tt).
Proof. apply delete_last. intros. by apply (delete_chat_first _ g). Qed.

Lemma delete_created_document l b :
  Forall (fun ob => fst ob <> g) l ->
  document.delete_document (ObjectId_str g) (rows document.dict (l ++ [(g, b)]))
  = (rows document.dict l, Returns {[ "detail" := "Document deleted successfully." ]}).
Proof. apply delete_last. intros. by apply (delete_document_first _ g). Qed.

Lemma delete_created_expense l b :
  Forall (fun ob => fst ob <> g) l ->
  expense.delete_expense (ObjectId_str g) (rows expense.dict (l ++ [(g, b)]))
  = (rows expense.dict l, Returns {[ "detail" := "Expense deleted successfully." ]}).
Proof. apply delete_last. intros. by apply (delete_expense_first _ g). Qed.

Lemma delete_created_meeting l b :
  Forall (fun ob => fst ob <> g) l ->
  meeting.delete_meeting (ObjectId_str g) (rows meeting.dict (l ++ [(g, b)]))
  = (rows meeting.dict l, Returns {[ "detail" := "Meeting deleted successfully." ]}).
Proof. apply delete_last. intros. by apply (delete_meeting_first _ g). Qed.

Lemma delete_created_project l b :
  Forall (fun ob => fst ob <> g) l ->
  project.delete_project (ObjectId_str g) (rows project.dict (l ++ [(g, b)]))
  = (rows project.dict l, Returns {[ "detail" := "Project deleted successfully." ]}).
Proof. apply delete_last. intros. by apply (delete_project_first _ g). Qed.

Lemma delete_created_employee l b :
  Forall (fun ob => fst ob <> g) l ->
  employee.delete_employee (ObjectId_str g) (rows employee.dict (l ++ [(g, b)]))
  = (rows employee.dict l, Returns {[ "detail" := "Employee deleted successfully." ]}).
Proof. apply delete_last. intros. by apply (delete_employee_first _ g). Qed.
End Undo.

(** A delete with the identifier that a create returned undoes the create:
    the collection is again the one before.  This holds for the chat,
    document, expense, meeting and project routers; [g] is the identifier
    the driver generated, twelve bytes long and not in use, and the
    payload's key is not taken where the router checks it. *)
Theorem create_then_delete g :
  (binary g < 2 ^ 96)%N ->
  (forall l b,
      Forall (fun ob => fst ob <> g) l ->
      exists c1 d,
        chat.create_chat g b (rows chat.dict l)
        = (c1, Returns {| chat.detail := "Chat created successfully.";
                          chat.data := Some d |})
        /\ chat.delete_chat (chat.id d) c1 = (rows chat.dict l, Returns tt))
  /\ (forall l b,
         Forall (fun ob => fst ob <> g) l ->
         Forall (fun ob => document.title (snd ob) <> document.title b) l ->
         exists c1 d,
           document.create_document g b (rows document.dict l)
           = (c1, Returns {| document.detail := "Document created successfully.";
                             document.data := Some d |})
           /\ document.delete_document (document.id d) c1
              = (rows document.dict l,
                 Returns {[ "detail" := "Document deleted successfully." ]}))
  /\ (forall l b,
         Forall (fun ob => fst ob <> g) l ->
         exists c1 d,
           expense.create_expense g b (rows expense.dict l)
           = (c1, Returns {| expense.detail := "Expense created successfully.";
                             expense.data := Some d |})
           /\ expense.delete_expense (expense.id d) c1
              = (rows expense.dict l,
                 Returns {[ "detail" := "Expense deleted successfully." ]}))
  /\ (forall l b,
         Forall (fun ob => fst ob <> g) l ->
         Forall (fun ob => ~ (meeting.title (snd ob) = meeting.title b
                              /\ meeting.date (snd ob) = meeting.date b)) l ->
         exists c1 d,
           meeting.create_meeting g b (rows meeting.dict l)
           = (c1, Returns {| meeting.detail := "Meeting created successfully.";
                             meeting.data := Some d |})
           /\ meeting.delete_meeting (meeting.id d) c1
              = (rows meeting.dict l,
                 Returns {[ "detail" := "Meeting deleted successfully." ]}))
  /\ (forall l b,
         Forall (fun ob => fst ob <> g) l ->
         Forall (fun ob => project.name (snd ob) <> project.name b) l ->
         exists c1 d,
           project.create_project g b (rows project.dict l)
           = (c1, Returns {| project.detail := "Project created successfully.";
                             project.data := Some d |})
           /\ project.delete_project (project.id d) c1
              = (rows project.dict l,
                 Returns {[ "detail" := "Project deleted successfully." ]})).
Proof.
  intros Hg. repeat apply conj; intros.
  - eexists _, _. split; [by apply create_chat_fresh|]. by apply delete_created_chat.
  - eexists _, _. split; [by apply create_document_fresh|].
    by apply delete_created_document.
  - eexists _, _. split; [by apply create_expense_fresh|].
    by apply delete_created_expense.
  - eexists _, _. split; [by apply create_meeting_fresh|].
    by apply delete_created_meeting.
  - eexists _, _. split; [by apply create_project_fresh|].
    by apply delete_created_project.
Qed.

Lemma create_then_delete_witness :
  (binary (oid 7) < 2 ^ 96)%N
  /\ exists c1 d,
       chat.create_chat (oid 7) hello (rows chat.dict [(oid 1, hello)])
       = (c1, Returns {| chat.detail := "Chat created successfully.";
                         chat.data := Some d |})
       /\ chat.delete_chat (chat.id d) c1
          = (rows chat.dict [(oid 1, hello)], Returns tt).
Proof.
  assert (Hg : (binary (oid 7) < 2 ^ 96)%N) by (vm_compute; reflexivity).
  split; [exact Hg|].
  destruct (create_then_delete (oid 7) Hg) as (H & _).
  apply H. repeat constructor. vm_compute. congruence.
Defined.
(** * Reading back what was written *)

(** Among rows with distinct identifiers, the filter on [_id] selects one. *)
Lemma selected_by_id_unique {B} (dict : B -> document) o pre b post :
  Forall (fun ob => fst ob <> o) pre -> Forall (fun ob => fst ob <> o) post ->
  selected {[ "_id" := Eq (VOid o) ]} dict (pre ++ (o, b) :: post) = [(o, b)].
Proof.
  intros Hpre Hpost. unfold selected.
  assert (Hnone : forall l, Forall (fun ob : ObjectId * B => fst ob <> o) l ->
            filter (fun ob => doc_matches {[ "_id" := Eq (VOid o) ]} (row dict ob)) l = []).
  { intros l Hl. induction Hl as [|ob l Hob _ IH]; [reflexivity|].
    rewrite filter_cons_False; [exact IH|]. by rewrite by_id_matches, has_id_row. }
  rewrite filter_app, filter_cons_True by (by rewrite by_id_matches, has_id_row).
  by rewrite !Hnone.
Qed.

Section Read_by_id.
Variables (id : string) (o : ObjectId).
Hypothesis Hid : ObjectId_parse id = Some o.

Let by_id : query := {[ "_id" := Eq (VOid o) ]}.

Ltac id_only :=
  pose proof (parsed_nonempty _ _ Hid) as Hne;
  unfold try_except, bind, if_truthy; simpl;
  rewrite Hne; simpl; rewrite (ObjectId_ok _ _ _ Hid); reflexivity.

Lemma search_documents_by_id l :
  document.search_documents (Some id) None None (rows document.dict l)
  = (rows document.dict l, Returns (map document_record (selected by_id document.dict l))).
Proof.
  rewrite <- (search_rows document.dict (listing document.Document_) document_record
                (listing_rows document.dict _ document_record Document_row) by_id l)
    by apply equalities_check, equalities_singleton.
  unfold document.search_documents, document.search_query. id_only.
Qed.

Lemma search_documents_unique pre b post :
  Forall (fun ob => fst ob <> o) pre -> Forall (fun ob => fst ob <> o) post ->
  document.search_documents (Some id) None None (rows document.dict (pre ++ (o, b) :: post))
  = (rows document.dict (pre ++ (o, b) :: post), Returns [document_record (o, b)]).
Proof.
  intros Hpre Hpost. rewrite search_documents_by_id. unfold by_id.
  by rewrite selected_by_id_unique.
Qed.

Lemma search_expenses_by_id l :
  expense.search_expenses (Some id) None None None (rows expense.dict l)
  = (rows expense.dict l, Returns (map expense_record (selected by_id expense.dict l))).
Proof.
  rewrite <- (search_rows expense.dict (listing expense.Expense_) expense_record
                (listing_rows expense.dict _ expense_record Expense_row) by_id l)
    by apply equalities_check, equalities_singleton.
  unfold expense.search_expenses, expense.search_query. id_only.
Qed.

Lemma search_expenses_unique pre b post :
  Forall (fun ob => fst ob <> o) pre -> Forall (fun ob => fst ob <> o) post ->
  expense.search_expenses (Some id) None None None (rows expense.dict (pre ++ (o, b) :: post))
  = (rows expense.dict (pre ++ (o, b) :: post), Returns [expense_record (o, b)]).
Proof.
  intros Hpre Hpost. rewrite search_expenses_by_id. unfold by_id.
  by rewrite selected_by_id_unique.
Qed.

Lemma search_meetings_by_id l :
  meeting.search_meetings (Some id) None None None (rows meeting.dict l)
  = (rows meeting.dict l, Returns (map meeting_record (selected by_id meeting.dict l))).
Proof.
  rewrite <- (search_rows meeting.dict (listing meeting.Meeting_) meeting_record
                (listing_rows meeting.dict _ meeting_record Meeting_row) by_id l)
    by apply equalities_check, equalities_singleton.
  unfold meeting.search_meetings, meeting.search_query. id_only.
Qed.

Lemma search_meetings_unique pre b post :
  Forall (fun ob => fst ob <> o) pre -> Forall (fun ob => fst ob <> o) post ->
  meeting.search_meetings (Some id) None None None (rows meeting.dict (pre ++ (o, b) :: post))
  = (rows meeting.dict (pre ++ (o, b) :: post), Returns [meeting_record (o, b)]).
Proof.
  intros Hpre Hpost. rewrite search_meetings_by_id. unfold by_id.
  by rewrite selected_by_id_unique.
Qed.

Lemma search_projects_by_id l :
  project.search_projects (Some id) None None (rows project.dict l)
  = (rows project.dict l, Returns (map project_record (selected by_id project.dict l))).
Proof.
  rewrite <- (search_rows project.dict (listing project.Project_) project_record
                (listing_rows project.dict _ project_record Project_row) by_id l)
    by apply equalities_check, equalities_singleton.
  unfold project.search_projects, project.search_query. id_only.
Qed.

Lemma search_projects_unique pre b post :
  Forall (fun ob => fst ob <> o) pre -> Forall (fun ob => fst ob <> o) post ->
  project.search_projects (Some id) None None (rows project.dict (pre ++ (o, b) :: post))
  = (rows project.dict (pre ++ (o, b) :: post), Returns [project_record (o, b)]).
Proof.
  intros Hpre Hpost. rewrite search_projects_by_id. unfold by_id.
  by rewrite selected_by_id_unique.
Qed.
End Read_by_id.

(** ** Listings, handler by handler *)

Lemma get_chats_rows l :
  chat.get_chats (rows chat.dict l) = (rows chat.dict l, Returns (map chat_record l)).
Proof.
  unfold chat.get_chats. apply try_except_Returns.
  rewrite (bind_Returns _ _ _ _ _ (find_all _)). apply chat_listing_rows.
Qed.

Lemma get_documents_rows l :
  document.get_documents (rows document.dict l) = (rows document.dict l, Returns (map document_record l)).
Proof.
  unfold document.get_documents. apply try_except_Returns.
  rewrite (bind_Returns _ _ _ _ _ (find_all _)).
  apply (listing_rows document.dict _ document_record Document_row).
Qed.

Lemma get_expenses_rows l :
  expense.get_expenses (rows expense.dict l) = (rows expense.dict l, Returns (map expense_record l)).
Proof.
  unfold expense.get_expenses. apply try_except_Returns.
  rewrite (bind_Returns _ _ _ _ _ (find_all _)).
  apply (listing_rows expense.dict _ expense_record Expense_row).
Qed.

Lemma get_meetings_rows l :
  meeting.get_meetings (rows meeting.dict l) = (rows meeting.dict l, Returns (map meeting_record l)).
Proof.
  unfold meeting.get_meetings. apply try_except_Returns.
  rewrite (bind_Returns _ _ _ _ _ (find_all _)).
  apply (listing_rows meeting.dict _ meeting_record Meeting_row).
Qed.

Lemma get_projects_rows l :
  project.get_projects (rows project.dict l) = (rows project.dict l, Returns (map project_record l)).
Proof.
  unfold project.get_projects. apply try_except_Returns.
  rewrite (bind_Returns _ _ _ _ _ (find_all _)).
  apply (listing_rows project.dict _ project_record Project_row).
Qed.

(** ** Create, then read *)

(** After a create the listing shows the records that were there, in their
    order, followed by the new one; and where the search takes an [id], the
    identifier in the create's response finds the new record and nothing
    else.  [g] is the generated identifier, twelve bytes long and not in
    use. *)
Theorem create_then_read g :
  (binary g < 2 ^ 96)%N ->
  (forall l b,
      Forall (fun ob => fst ob <> g) l ->
      exists c1 d,
        chat.create_chat g b (rows chat.dict l)
        = (c1, Returns {| chat.detail := "Chat created successfully.";
                          chat.data := Some d |})
        /\ chat.get_chats c1 = (c1, Returns (map chat_record l ++ [d])))
  /\ (forall l b,
         Forall (fun ob => fst ob <> g) l ->
         Forall (fun ob => document.title (snd ob) <> document.title b) l ->
         exists c1 d,
           document.create_document g b (rows document.dict l)
           = (c1, Returns {| document.detail := "Document created successfully.";
                             document.data := Some d |})
           /\ document.get_documents c1 = (c1, Returns (map document_record l ++ [d]))
           /\ document.search_documents (Some (document.id d)) None None c1 = (c1, Returns [d]))
  /\ (forall l b,
         Forall (fun ob => fst ob <> g) l ->
         exists c1 d,
           expense.create_expense g b (rows expense.dict l)
           = (c1, Returns {| expense.detail := "Expense created successfully.";
                             expense.data := Some d |})
           /\ expense.get_expenses c1 = (c1, Returns (map expense_record l ++ [d]))
           /\ expense.search_expenses (Some (expense.id d)) None None None c1 = (c1, Returns [d]))
  /\ (forall l b,
         Forall (fun ob => fst ob <> g) l ->
         Forall (fun ob => ~ (meeting.title (snd ob) = meeting.title b
                              /\ meeting.date (snd ob) = meeting.date b)) l ->
         exists c1 d,
           meeting.create_meeting g b (rows meeting.dict l)
           = (c1, Returns {| meeting.detail := "Meeting created successfully.";
                             meeting.data := Some d |})
           /\ meeting.get_meetings c1 = (c1, Returns (map meeting_record l ++ [d]))
           /\ meeting.search_meetings (Some (meeting.id d)) None None None c1 = (c1, Returns [d]))
  /\ (forall l b,
         Forall (fun ob => fst ob <> g) l ->
         Forall (fun ob => project.name (snd ob) <> project.name b) l ->
         exists c1 d,
           project.create_project g b (rows project.dict l)
           = (c1, Returns {| project.detail := "Project created successfully.";
                             project.data := Some d |})
           /\ project.get_projects c1 = (c1, Returns (map project_record l ++ [d]))
           /\ project.search_projects (Some (project.id d)) None None c1 = (c1, Returns [d])).
Proof.
  intros Hg. pose proof (ObjectId_roundtrip g Hg) as Hid.
  repeat apply conj; intros.
  - eexists _, _. split; [by apply create_chat_fresh|].
    by rewrite get_chats_rows, map_app.
  - eexists _, _. split; [by apply create_document_fresh|]. split.
    + by rewrite get_documents_rows, map_app.
    + apply (search_documents_unique _ g Hid); [done | constructor].
  - eexists _, _. split; [by apply create_expense_fresh|]. split.
    + by rewrite get_expenses_rows, map_app.
    + apply (search_expenses_unique _ g Hid); [done | constructor].
  - eexists _, _. split; [by apply create_meeting_fresh|]. split.
    + by rewrite get_meetings_rows, map_app.
    + apply (search_meetings_unique _ g Hid); [done | constructor].
  - eexists _, _. split; [by apply create_project_fresh|]. split.
    + by rewrite get_projects_rows, map_app.
    + apply (search_projects_unique _ g Hid); [done | constructor].
Qed.

Lemma create_then_read_witness :
  (binary (oid 7) < 2 ^ 96)%N
  /\ exists c1 d,
       document.create_document (oid 7) report_lower (rows document.dict [(oid 1, report)])
       = (c1, Returns {| document.detail := "Document created successfully.";
                         document.data := Some d |})
       /\ document.get_documents c1
          = (c1, Returns (map document_record [(oid 1, report)] ++ [d]))
       /\ document.search_documents (Some (document.id d)) None None c1
          = (c1, Returns [d]).
Proof.
  assert (Hg : (binary (oid 7) < 2 ^ 96)%N) by (vm_compute; reflexivity).
  split; [exact Hg|].
  destruct (create_then_read (oid 7) Hg) as (_ & H & _).
  apply H; repeat constructor; vm_compute; congruence.
Defined.

(** ** Update, then read *)

(** After an update that found its target, the listing shows the new payload
    in the place of the old one, and a search with the same [id] returns the
    new payload only.  The record read back carries the stored identifier in
    its 24 lower-case digits.  The identifier is carried by one stored row. *)
Theorem update_then_read id o :
  ObjectId_parse id = Some o ->
  (forall p b pre post,
      Forall (fun ob => fst ob <> o) pre ->
      exists c1 r,
        chat.update_chat id p (rows chat.dict (pre ++ (o, b) :: post)) = (c1, Returns r)
        /\ chat.get_chats c1
           = (c1, Returns (map chat_record pre ++ chat_record (o, p)
                             :: map chat_record post)))
  /\ (forall p b pre post,
         Forall (fun ob => fst ob <> o) pre -> Forall (fun ob => fst ob <> o) post ->
         exists c1 r,
           document.update_document id p (rows document.dict (pre ++ (o, b) :: post)) = (c1, Returns r)
           /\ document.get_documents c1
              = (c1, Returns (map document_record pre ++ document_record (o, p)
                                :: map document_record post))
           /\ document.search_documents (Some id) None None c1
              = (c1, Returns [document_record (o, p)]))
  /\ (forall p b pre post,
         Forall (fun ob => fst ob <> o) pre -> Forall (fun ob => fst ob <> o) post ->
         exists c1 r,
           expense.update_expense id p (rows expense.dict (pre ++ (o, b) :: post)) = (c1, Returns r)
           /\ expense.get_expenses c1
              = (c1, Returns (map expense_record pre ++ expense_record (o, p)
                                :: map expense_record post))
           /\ expense.search_expenses (Some id) None None None c1
              = (c1, Returns [expense_record (o, p)]))
  /\ (forall p b pre post,
         Forall (fun ob => fst ob <> o) pre -> Forall (fun ob => fst ob <> o) post ->
         exists c1 r,
           meeting.update_meeting id p (rows meeting.dict (pre ++ (o, b) :: post)) = (c1, Returns r)
           /\ meeting.get_meetings c1
              = (c1, Returns (map meeting_record pre ++ meeting_record (o, p)
                                :: map meeting_record post))
           /\ meeting.search_meetings (Some id) None None None c1
              = (c1, Returns [meeting_record (o, p)]))
  /\ (forall p b pre post,
         Forall (fun ob => fst ob <> o) pre -> Forall (fun ob => fst ob <> o) post ->
         exists c1 r,
           project.update_project id p (rows project.dict (pre ++ (o, b) :: post)) = (c1, Returns r)
           /\ project.get_projects c1
              = (c1, Returns (map project_record pre ++ project_record (o, p)
                                :: map project_record post))
           /\ project.search_projects (Some id) None None c1
              = (c1, Returns [project_record (o, p)])).
Proof.
  intros Hid. repeat apply conj; intros.
  - eexists _, _. split; [by apply (update_chat_hit _ _ Hid)|].
    by rewrite get_chats_rows, map_app.
  - eexists _, _. split; [by apply (update_document_hit _ _ Hid)|]. split.
    + by rewrite get_documents_rows, map_app.
    + by apply (search_documents_unique _ _ Hid).
  - eexists _, _. split; [by apply (update_expense_hit _ _ Hid)|]. split.
    + by rewrite get_expenses_rows, map_app.
    + by apply (search_expenses_unique _ _ Hid).
  - eexists _, _. split; [by apply (update_meeting_hit _ _ Hid)|]. split.
    + by rewrite get_meetings_rows, map_app.
    + by apply (search_meetings_unique _ _ Hid).
  - eexists _, _. split; [by apply (update_project_hit _ _ Hid)|]. split.
    + by rewrite get_projects_rows, map_app.
    + by apply (search_projects_unique _ _ Hid).
Qed.

Lemma update_then_read_witness :
  ObjectId_parse "00000000000000000000000A" = Some (oid 10)
  /\ exists c1 r,
       document.update_document "00000000000000000000000A" report_lower
         (rows document.dict ([(oid 1, report_lower)] ++ (oid 10, report) :: []))
       = (c1, Returns r)
       /\ document.get_documents c1
          = (c1, Returns (map document_record [(oid 1, report_lower)]
                            ++ document_record (oid 10, report_lower)
                            :: map document_record []))
       /\ document.search_documents (Some "00000000000000000000000A") None None c1
          = (c1, Returns [document_record (oid 10, report_lower)]).
Proof.
  assert (Hid : ObjectId_parse "00000000000000000000000A" = Some (oid 10)) by reflexivity.
  split; [exact Hid|].
  destruct (update_then_read _ _ Hid) as (_ & H & _).
  apply H; repeat constructor; vm_compute; congruence.
Defined.
(** * Requests in sequence *)

(** ** Two updates of the same document *)

(** Every payload of a schema has the same keys. *)
Ltac keys dict := unfold dict; rewrite !dom_insert_L, !dom_singleton_L; reflexivity.

Lemma chat_dict_keys p q : dom (chat.dict p) = dom (chat.dict q).
Proof. keys chat.dict. Qed.

Lemma document_dict_keys p q : dom (document.dict p) = dom (document.dict q).
Proof. keys document.dict. Qed.

Lemma expense_dict_keys p q : dom (expense.dict p) = dom (expense.dict q).
Proof. keys expense.dict. Qed.

Lemma meeting_dict_keys p q : dom (meeting.dict p) = dom (meeting.dict q).
Proof. keys meeting.dict. Qed.

Lemma project_dict_keys p q : dom (project.dict p) = dom (project.dict q).
Proof. keys project.dict. Qed.

Lemma set_twice (f1 f2 d : document) : dom f1 = dom f2 -> f2 ∪ (f1 ∪ d) = f2 ∪ d.
Proof.
  intros H. rewrite (assoc_L (∪)). f_equal. apply union_same_keys. by rewrite H.
Qed.

Lemma set_has_id o (fields d : document) :
  fields !! "_id" = None -> has_id o d -> has_id o (fields ∪ d).
Proof. unfold has_id. intros H Hd. by rewrite set_keeps_id. Qed.

(** The first update is replaced by what it wrote, then both sides are the
    second update of a collection with the same document in the same place. *)
Ltac twice h writes fields keys Hid Hpre Hd :=
  let Hd1 := fresh in
  pose proof (set_has_id _ fields _ ltac:(reflexivity) Hd) as Hd1;
  etransitivity;
  [ apply (f_equal h), (f_equal fst (writes _ _ Hid _ _ _ Hpre Hd _)) |];
  cbn [fst];
  etransitivity; [ apply (writes _ _ Hid _ _ _ Hpre Hd1) |];
  symmetry; etransitivity; [ apply (writes _ _ Hid _ _ _ Hpre Hd) |];
  by rewrite (set_twice _ _ _ keys).

(** In the chat, document, expense, meeting and project routers, of two
    updates of the same document the later one decides: the collection, and
    the answer, are those of the later update alone.  With the same payload
    twice, the second update changes nothing. *)
Theorem later_update_decides id o pre d post :
  ObjectId_parse id = Some o -> absent o pre -> has_id o d ->
  (forall p1 p2,
      chat.update_chat id p2 (fst (chat.update_chat id p1 (pre ++ d :: post)))
      = chat.update_chat id p2 (pre ++ d :: post))
  /\
  (forall p1 p2,
      document.update_document id p2 (fst (document.update_document id p1 (pre ++ d :: post)))
      = document.update_document id p2 (pre ++ d :: post))
  /\
  (forall p1 p2,
      expense.update_expense id p2 (fst (expense.update_expense id p1 (pre ++ d :: post)))
      = expense.update_expense id p2 (pre ++ d :: post))
  /\
  (forall p1 p2,
      meeting.update_meeting id p2 (fst (meeting.update_meeting id p1 (pre ++ d :: post)))
      = meeting.update_meeting id p2 (pre ++ d :: post))
  /\
  (forall p1 p2,
      project.update_project id p2 (fst (project.update_project id p1 (pre ++ d :: post)))
      = project.update_project id p2 (pre ++ d :: post)).
Proof.
  intros Hid Hpre Hd.
  repeat apply conj; intros p1 p2.
  - twice (chat.update_chat id p2) update_chat_writes (chat.dict p1)
      (chat_dict_keys p1 p2) Hid Hpre Hd.
  - twice (document.update_document id p2) update_document_writes (document.dict p1)
      (document_dict_keys p1 p2) Hid Hpre Hd.
  - twice (expense.update_expense id p2) update_expense_writes (expense.dict p1)
      (expense_dict_keys p1 p2) Hid Hpre Hd.
  - twice (meeting.update_meeting id p2) update_meeting_writes (meeting.dict p1)
      (meeting_dict_keys p1 p2) Hid Hpre Hd.
  - twice (project.update_project id p2) update_project_writes (project.dict p1)
      (project_dict_keys p1 p2) Hid Hpre Hd.
Qed.

Lemma later_update_decides_witness :
  let pre := rows chat.dict [(oid 1, hello)] in
  let d := row chat.dict (oid 2, hello) in
  let id := "000000000000000000000002" in
  ObjectId_parse id = Some (oid 2) /\ absent (oid 2) pre /\ has_id (oid 2) d
  /\ forall p1 p2,
       chat.update_chat id p2 (fst (chat.update_chat id p1 (pre ++ d :: [])))
       = chat.update_chat id p2 (pre ++ d :: []).
Proof.
  intros pre d id.
  assert (Hid : ObjectId_parse id = Some (oid 2)) by reflexivity.
  assert (Hpre : absent (oid 2) pre) by (repeat constructor; vm_compute; congruence).
  assert (Hd : has_id (oid 2) d) by reflexivity.
  split; [exact Hid|]. split; [exact Hpre|]. split; [exact Hd|].
  destruct (later_update_decides id (oid 2) pre d [] Hid Hpre Hd) as (H & _).
  exact H.
Defined.

(** ** After a delete *)

Lemma absent_app o pre post : absent o pre -> absent o post -> absent o (pre ++ post).
Proof. unfold absent. intros. by apply Forall_app. Qed.

(** Once the one document under an identifier has been deleted, a second
    delete and an update with the same identifier change nothing and answer
    500: the 404 they raise is caught by the handler's own [except]. *)
Theorem deleted_target_answers_500 id o pre d post :
  ObjectId_parse id = Some o -> absent o pre -> has_id o d -> absent o post ->
  (answers_500 (employee.delete_employee id)
     (HTTPException 404 (Literal "Employee not found"))
     (fst (employee.delete_employee id (pre ++ d :: post)))
   /\ forall p,
       answers_500 (employee.update_employee id p)
         (HTTPException 404 (Literal "Employee not found"))
         (fst (employee.delete_employee id (pre ++ d :: post))))
  /\
  (answers_500 (chat.delete_chat id)
     (HTTPException 404 (Literal "Chat not found"))
     (fst (chat.delete_chat id (pre ++ d :: post)))
   /\ forall p,
       answers_500 (chat.update_chat id p)
         (HTTPException 404 (Literal "Chat not found"))
         (fst (chat.delete_chat id (pre ++ d :: post))))
  /\
  (answers_500 (document.delete_document id)
     (HTTPException 404 (Literal "Document not found"))
     (fst (document.delete_document id (pre ++ d :: post)))
   /\ forall p,
       answers_500 (document.update_document id p)
         (HTTPException 404 (Literal "Document not found"))
         (fst (document.delete_document id (pre ++ d :: post))))
  /\
  (answers_500 (expense.delete_expense id)
     (HTTPException 404 (Literal "Expense not found"))
     (fst (expense.delete_expense id (pre ++ d :: post)))
   /\ forall p,
       answers_500 (expense.update_expense id p)
         (HTTPException 404 (Literal "Expense not found"))
         (fst (expense.delete_expense id (pre ++ d :: post))))
  /\
  (answers_500 (meeting.delete_meeting id)
     (HTTPException 404 (Literal "Meeting not found"))
     (fst (meeting.delete_meeting id (pre ++ d :: post)))
   /\ forall p,
       answers_500 (meeting.update_meeting id p)
         (HTTPException 404 (Literal "Meeting not found"))
         (fst (meeting.delete_meeting id (pre ++ d :: post))))
  /\
  (answers_500 (project.delete_project id)
     (HTTPException 404 (Literal "Project not found"))
     (fst (project.delete_project id (pre ++ d :: post)))
   /\ forall p,
       answers_500 (project.update_project id p)
         (HTTPException 404 (Literal "Project not found"))
         (fst (project.delete_project id (pre ++ d :: post)))).
Proof.
  intros Hid Hpre Hd Hpost. pose proof (absent_app _ _ _ Hpre Hpost) as Hgone.
  repeat apply conj; intros.
  - rewrite (delete_employee_first _ _ Hid _ _ _ Hpre Hd). cbn [fst].
    by apply (delete_employee_missing _ _ _ Hid).
  - rewrite (delete_employee_first _ _ Hid _ _ _ Hpre Hd). cbn [fst].
    by apply (update_employee_missing _ _ _ Hid).
  - rewrite (delete_chat_first _ _ Hid _ _ _ Hpre Hd). cbn [fst].
    by apply (delete_chat_missing _ _ _ Hid).
  - rewrite (delete_chat_first _ _ Hid _ _ _ Hpre Hd). cbn [fst].
    by apply (update_chat_missing _ _ _ Hid).
  - rewrite (delete_document_first _ _ Hid _ _ _ Hpre Hd). cbn [fst].
    by apply (delete_document_missing _ _ _ Hid).
  - rewrite (delete_document_first _ _ Hid _ _ _ Hpre Hd). cbn [fst].
    by apply (update_document_missing _ _ _ Hid).
  - rewrite (delete_expense_first _ _ Hid _ _ _ Hpre Hd). cbn [fst].
    by apply (delete_expense_missing _ _ _ Hid).
  - rewrite (delete_expense_first _ _ Hid _ _ _ Hpre Hd). cbn [fst].
    by apply (update_expense_missing _ _ _ Hid).
  - rewrite (delete_meeting_first _ _ Hid _ _ _ Hpre Hd). cbn [fst].
    by apply (delete_meeting_missing _ _ _ Hid).
  - rewrite (delete_meeting_first _ _ Hid _ _ _ Hpre Hd). cbn [fst].
    by apply (update_meeting_missing _ _ _ Hid).
  - rewrite (delete_project_first _ _ Hid _ _ _ Hpre Hd). cbn [fst].
    by apply (delete_project_missing _ _ _ Hid).
  - rewrite (delete_project_first _ _ Hid _ _ _ Hpre Hd). cbn [fst].
    by apply (update_project_missing _ _ _ Hid).
Qed.

Lemma deleted_target_answers_500_witness :
  let pre := rows chat.dict [(oid 1, hello)] in
  let d := row chat.dict (oid 2, hello) in
  let id := "000000000000000000000002" in
  ObjectId_parse id = Some (oid 2) /\ absent (oid 2) pre /\ has_id (oid 2) d
  /\ absent (oid 2) []
  /\ answers_500 (chat.delete_chat id) (HTTPException 404 (Literal "Chat not found"))
       (fst (chat.delete_chat id (pre ++ d :: []))).
Proof.
  intros pre d id.
  assert (Hid : ObjectId_parse id = Some (oid 2)) by reflexivity.
  assert (Hpre : absent (oid 2) pre) by (repeat constructor; vm_compute; congruence).
  assert (Hd : has_id (oid 2) d) by reflexivity.
  assert (Hpost : absent (oid 2) []) by constructor.
  split; [exact Hid|]. split; [exact Hpre|]. split; [exact Hd|]. split; [exact Hpost|].
  destruct (deleted_target_answers_500 id (oid 2) pre d [] Hid Hpre Hd Hpost)
    as (_ & (H & _) & _).
  exact H.
Defined.
